(** * btroute: the Biketerra GPX exporter

    A shallow embedding of [btroute.py]: the flattened pointer-array
    decoder [extract_route_info], the track builder [build_gpx] and the
    command-line driver [main], followed by the properties of the
    specification that are settled against them. *)

From Stdlib Require Import ZArith String Ascii List Bool Lia.
From Stdlib Require Import Floats.SpecFloat.
From Stdlib Require Import Numbers.DecimalString.
From stdpp Require Import gmap strings list fin_maps.

Local Open Scope string_scope.
Local Open Scope Z_scope.

(** ** Python values

    [response.json()] yields the usual JSON object model: [None], booleans,
    integers of any size, binary64 floats, strings, lists and dictionaries
    keyed by strings.  Floats are kept as [spec_float], the Standard
    Library's specification of IEEE 754 numbers, at precision 53.  A string
    is a sequence of characters, one [ascii] per character. *)

#[warnings="-register-all"]
Inductive value : Type :=
| VNone
| VBool (b : bool)
| VInt (z : Z)
| VFloat (f : spec_float)
| VStr (s : string)
| VList (l : list value)
| VDict (d : gmap string value).

(** The exceptions that can travel through the program. *)
Inductive exception : Type :=
| KeyError
| IndexError
| TypeError
| ValueError
| OverflowError
| HTTPError
| RequestException
| OSError
| ZeroDivisionError
| UnicodeEncodeError
| SystemExit (code : Z).

Inductive result (A : Type) : Type :=
| Returns (a : A)
| Raises (e : exception).
Arguments Returns {A} a.
Arguments Raises {A} e.

(** [except (KeyError, IndexError, TypeError)] of [main]: the class the
    specification calls a structure error. *)
Definition StructureError (e : exception) : Prop :=
  e = KeyError \/ e = IndexError \/ e = TypeError.

(** ** Programs: state passing with exceptions

    A program reads and writes a state of type [S] and either returns or
    raises; the state survives an exception, as Python objects do. *)
Definition Prog (S A : Type) : Type := S -> result A * S.

Definition ret {S A} (a : A) : Prog S A := fun s => (Returns a, s).

Definition raise {S A} (e : exception) : Prog S A := fun s => (Raises e, s).

Definition bind {S A B} (m : Prog S A) (k : A -> Prog S B) : Prog S B :=
  fun s =>
    match m s with
    | (Returns a, s') => k a s'
    | (Raises e, s') => (Raises e, s')
    end.

(** A computation that touches no state. *)
Definition lift {S A} (r : result A) : Prog S A := fun s => (r, s).

Definition gets {S A} (f : S -> A) : Prog S A := fun s => (Returns (f s), s).

Definition modify {S} (f : S -> S) : Prog S unit := fun s => (Returns tt, f s).

Notation "'let!' x ':=' m 'in' k" := (bind m (fun x => k))
  (at level 10, x pattern, m at level 100, k at level 200).
Notation "m ';;;' k" := (bind m (fun _ => k))
  (at level 100, right associativity).

(** [for x in xs: body(x)] *)
Fixpoint for_each {S A} (xs : list A) (body : A -> Prog S unit) : Prog S unit :=
  match xs with
  | [] => ret tt
  | x :: xs' => body x ;;; for_each xs' body
  end.

(** The same for computations without state. *)
Definition rbind {A B} (r : result A) (k : A -> result B) : result B :=
  match r with
  | Returns a => k a
  | Raises e => Raises e
  end.

Notation "'try!' x ':=' r 'in' k" := (rbind r (fun x => k))
  (at level 10, x pattern, r at level 100, k at level 200).

(** ** Built-in operations on values *)

(** [bool(v)] *)
Definition truthy (v : value) : bool :=
  match v with
  | VNone => false
  | VBool b => b
  | VInt z => negb (z =? 0)
  | VFloat (S754_zero _) => false
  | VFloat _ => true
  | VStr s => negb (String.eqb s EmptyString)
  | VList l => match l with [] => false | _ => true end
  | VDict d => negb (Nat.eqb (size d) 0)
  end.

(** [a or b] *)
Definition py_or (a b : value) : value := if truthy a then a else b.

(** [isinstance(v, int)]; [bool] is a subclass of [int]. *)
Definition isinstance_int (v : value) : bool :=
  match v with
  | VInt _ | VBool _ => true
  | _ => false
  end.

(** The integer an [int] instance stands for. *)
Definition int_val (v : value) : Z :=
  match v with
  | VInt z => z
  | VBool true => 1
  | _ => 0
  end.

(** Sequence indexing: a negative index counts from the end. *)
Definition seq_getitem {A} (l : list A) (i : Z) : result A :=
  let n := Z.of_nat (length l) in
  let j := if i <? 0 then i + n else i in
  if (0 <=? j) && (j <? n) then
    match l !! Z.to_nat j with
    | Some v => Returns v
    | None => Raises IndexError
    end
  else Raises IndexError.

Definition chars (s : string) : list value :=
  map (fun c => VStr (String c EmptyString)) (list_ascii_of_string s).

(** [obj[key]] *)
Definition py_getitem (obj key : value) : result value :=
  match obj with
  | VList l =>
      if isinstance_int key then seq_getitem l (int_val key)
      else Raises TypeError
  | VStr s =>
      if isinstance_int key then seq_getitem (chars s) (int_val key)
      else Raises TypeError
  | VDict d =>
      match key with
      | VStr k =>
          match d !! k with
          | Some v => Returns v
          | None => Raises KeyError
          end
      | VList _ | VDict _ => Raises TypeError
      | _ => Raises KeyError
      end
  | _ => Raises TypeError
  end.

(** [item in container], for a string [item] *)
Definition py_contains (item : string) (container : value) : result bool :=
  match container with
  | VDict d => Returns (bool_decide (is_Some (d !! item)))
  | VList l =>
      Returns (existsb (fun x => match x with
                                 | VStr s => String.eqb s item
                                 | _ => false
                                 end) l)
  | VStr s =>
      Returns (match String.index 0 item s with
               | Some _ => true
               | None => false
               end)
  | _ => Raises TypeError
  end.

(** The items [for x in v] runs through. *)
Definition py_iter (v : value) : result (list value) :=
  match v with
  | VList l => Returns l
  | VStr s => Returns (chars s)
  | VDict d => Returns (map (fun kv => VStr (fst kv)) (map_to_list d))
  | _ => Raises TypeError
  end.

(** [d.get(key)] on a dictionary known to be one. *)
Definition dict_get (d : gmap string value) (key : string) : value :=
  default VNone (d !! key).

(** ** Numbers and their text *)

(** [str(z)] for an integer *)
Definition str_int (z : Z) : string := NilZero.string_of_int (Z.to_int z).

(** Binary64 arithmetic. *)
Definition float_div : spec_float -> spec_float -> spec_float := SFdiv 53 1024.

(** The float with the value of a (small) integer literal. *)
Definition float_of_Z (z : Z) : spec_float :=
  match z with
  | Z0 => S754_zero false
  | Zpos p => S754_finite false p 0
  | Zneg p => S754_finite true p 0
  end.

(** [v / b] where [b] is an integer literal of the source ([100000] and
    [100]).  Two integers divide to the correctly rounded float, or
    [OverflowError] when it is out of range; a float divides by the
    literal's float; anything else is a [TypeError]. *)
Definition py_truediv (v : value) (b : Z) : result spec_float :=
  match v with
  | VInt _ | VBool _ =>
      if b =? 0 then Raises ZeroDivisionError
      else
        match float_div (float_of_Z (int_val v)) (float_of_Z b) with
        | S754_infinity _ => Raises OverflowError
        | q => Returns q
        end
  | VFloat f =>
      if b =? 0 then Raises ZeroDivisionError
      else Returns (float_div f (float_of_Z b))
  | _ => Raises TypeError
  end.

(** Nearest integer to [n / d], ties to the even one ([0 <= n], [0 < d]). *)
Definition round_half_even (n d : Z) : Z :=
  let q := n / d in
  let r := n mod d in
  match 2 * r ?= d with
  | Lt => q
  | Gt => q + 1
  | Eq => if Z.even q then q else q + 1
  end.

(** [m * 2^e * 10^p] rounded to an integer. *)
Definition scaled_round (m : positive) (e : Z) (p : nat) : Z :=
  if 0 <=? e then Zpos m * 2 ^ e * 10 ^ Z.of_nat p
  else round_half_even (Zpos m * 10 ^ Z.of_nat p) (2 ^ (- e)).

(** [round(f)] *)
Definition py_round (f : spec_float) : result Z :=
  match f with
  | S754_nan => Raises ValueError
  | S754_infinity _ => Raises OverflowError
  | S754_zero _ => Returns 0
  | S754_finite s m e =>
      let n := scaled_round m e 0 in
      Returns (if s then - n else n)
  end.

Fixpoint zeros (n : nat) : string :=
  match n with
  | O => EmptyString
  | S n' => "0" +:+ zeros n'
  end.

(** The digits of [n / 10^p] with [p] decimals. *)
Definition fixed_digits (p : nat) (n : Z) : string :=
  let whole := str_int (n / 10 ^ Z.of_nat p) in
  match p with
  | O => whole
  | _ =>
      let frac := str_int (n mod 10 ^ Z.of_nat p) in
      whole +:+ "." +:+ zeros (p - String.length frac) +:+ frac
  end.

Definition sign_text (s : bool) : string := if s then "-" else EmptyString.

(** [f"{f:.<p>f}"] *)
Definition format_f (p : nat) (f : spec_float) : string :=
  match f with
  | S754_nan => "nan"
  | S754_infinity s => sign_text s +:+ "inf"
  | S754_zero s => sign_text s +:+ fixed_digits p 0
  | S754_finite s m e => sign_text s +:+ fixed_digits p (scaled_round m e p)
  end.

(** [", ".join(parts)]: every item must be a string. *)
Fixpoint all_str (parts : list value) : result (list string) :=
  match parts with
  | [] => Returns []
  | VStr s :: rest => try! ss := all_str rest in Returns (s :: ss)
  | _ :: rest => Raises TypeError
  end.

Definition py_join (sep : string) (parts : list value) : result string :=
  try! ss := all_str parts in Returns (String.concat sep ss).

(** ** The decoder *)

(** [deref(data, index)] *)
Definition deref (data index : value) : result value :=
  py_getitem data index.

(** A decoded track point, [{"lat": .., "lng": .., "ele": ..}]. *)
Record point : Type := Point { lat : value; lng : value; ele : value }.

(** The objects [extract_route_info] works on: its argument [data], which
    it holds by reference, and its two accumulators. *)
Record frame : Type := Frame {
  fr_data : value;
  fr_metadata : gmap string value;
  fr_points : list point
}.

Definition set_metadata (f : gmap string value -> gmap string value)
    (fr : frame) : frame :=
  Frame (fr_data fr) (f (fr_metadata fr)) (fr_points fr).

Definition set_points (f : list point -> list point) (fr : frame) : frame :=
  Frame (fr_data fr) (fr_metadata fr) (f (fr_points fr)).

Definition fields : list string :=
  ["id"; "title"; "distance"; "elevation";
   "geo_city"; "geo_county"; "geo_state"; "geo_country"].

Section Runtime.

(** What the interpreter supplies: [repr] of floats and containers, the
    text of an exception and of an uncaught exception's traceback, and
    the clock. *)
Variable py_repr : value -> string.
Variable str_exception : exception -> string.
Variable traceback : exception -> string.
Variable now : Z.

(** [str(v)], as an f-string field renders it *)
Definition py_str (v : value) : string :=
  match v with
  | VStr s => s
  | VInt z => str_int z
  | VBool true => "True"
  | VBool false => "False"
  | VNone => "None"
  | _ => py_repr v
  end.

(** Body of [for field in fields]. *)
Definition metadata_step (route_data route_meta_struct : value)
    (field : string) : Prog frame unit :=
  let! present := lift (py_contains field route_meta_struct) in
  if (present : bool) then
    let! idx := lift (py_getitem route_meta_struct (VStr field)) in
    if isinstance_int idx && (0 <? int_val idx) then
      let! v := lift (deref route_data idx) in
      modify (set_metadata (fun metadata => <[field := v]> metadata))
    else ret tt
  else ret tt.

(** What one round of [for point_idx in point_indices] reads from the
    store before it appends. *)
Definition resolve_point (route_data point_idx : value) : result point :=
  try! point_refs := deref route_data point_idx in
  try! ref0 := py_getitem point_refs (VInt 0) in
  try! lat := deref route_data ref0 in
  try! ref1 := py_getitem point_refs (VInt 1) in
  try! lng := deref route_data ref1 in
  try! ref2 := py_getitem point_refs (VInt 2) in
  try! ele := deref route_data ref2 in
  Returns (Point lat lng ele).

(** Body of [for point_idx in point_indices]. *)
Definition point_step (route_data point_idx : value) : Prog frame unit :=
  let! point := lift (resolve_point route_data point_idx) in
  modify (set_points (fun points => (points ++ [point])%list)).

(** [metadata.get("title") or f"Route {metadata.get('id', 'Unknown')}"] *)
Definition route_name_of (metadata : gmap string value) : value :=
  let title := dict_get metadata "title" in
  if truthy title then title
  else VStr ("Route " +:+ py_str (default (VStr "Unknown") (metadata !! "id"))).

(** [extract_route_info(data)] *)
Definition extract_route_info
    : Prog frame (list point * gmap string value * value) :=
  let! data := gets fr_data in
  let! nodes := lift (py_getitem data (VStr "nodes")) in
  let! node := lift (py_getitem nodes (VInt 2)) in
  let! route_data := lift (py_getitem node (VStr "data")) in
  let! route_info := lift (py_getitem route_data (VInt 0)) in
  let! lat_lng_idx := lift (py_getitem route_info (VStr "latLngData")) in
  let! route_meta_idx := lift (py_getitem route_info (VStr "route")) in
  let! route_meta_struct := lift (deref route_data route_meta_idx) in
  modify (set_metadata (fun _ => ∅)) ;;;
  for_each fields (metadata_step route_data route_meta_struct) ;;;
  let! metadata := gets fr_metadata in
  let route_name := route_name_of metadata in
  let! point_indices := lift (deref route_data lat_lng_idx) in
  modify (set_points (fun _ => [])) ;;;
  let! items := lift (py_iter point_indices) in
  for_each items (point_step route_data) ;;;
  let! points := gets fr_points in
  let! metadata := gets fr_metadata in
  ret (points, metadata, route_name).

(** A call [extract_route_info(data)] on a fresh argument. *)
Definition decode (data : value)
    : result (list point * gmap string value * value) :=
  fst (extract_route_info (Frame data ∅ [])).

(** ** The track builder *)

(** [gpxpy.gpx.GPXTrackPoint] *)
Record GPXTrackPoint : Type := TrackPoint {
  latitude : value;
  longitude : value;
  elevation : value
}.

(** [GPXTrackPoint(latitude=.., longitude=.., elevation=..)]: the
    constructor stores [latitude or 0], [longitude or 0] and the elevation
    as given. *)
Definition new_track_point (latitude longitude elevation : value)
    : GPXTrackPoint :=
  TrackPoint (py_or latitude (VInt 0)) (py_or longitude (VInt 0)) elevation.

(** The [gpxpy] objects [build_gpx] creates.  A track sits in
    [gpx.tracks] and a segment in [track.segments] by reference, so what
    is appended to them later shows in the document; references are
    positions in the builder's object tables. *)
Record segment_obj : Type := SegmentObj { so_points : list GPXTrackPoint }.

Record track_obj : Type := TrackObj {
  to_name : value;
  to_segments : list nat
}.

Record gpx_obj : Type := GpxObj {
  go_creator : value;
  go_name : value;
  go_description : value;
  go_time : option Z;
  go_tracks : list nat
}.

Record builder : Type := Builder {
  b_gpx : gpx_obj;
  b_tracks : list track_obj;
  b_segments : list segment_obj;
  b_desc_parts : list string
}.

(** The document a [gpx] object stands for once the references are
    followed: what [build_gpx] hands to its caller. *)
Record GPXTrackSegment : Type := Segment { seg_points : list GPXTrackPoint }.

Record GPXTrack : Type := Track {
  trk_name : value;
  trk_segments : list GPXTrackSegment
}.

Record GPX : Type := Gpx {
  gpx_creator : value;
  gpx_name : value;
  gpx_description : value;
  gpx_time : option Z;
  gpx_tracks : list GPXTrack
}.

Definition read_segment (b : builder) (r : nat) : option GPXTrackSegment :=
  (fun s => Segment (so_points s)) <$> b_segments b !! r.

Definition read_track (b : builder) (r : nat) : option GPXTrack :=
  (fun t => Track (to_name t) (omap (read_segment b) (to_segments t)))
    <$> b_tracks b !! r.

Definition read_gpx (b : builder) : GPX :=
  let g := b_gpx b in
  Gpx (go_creator g) (go_name g) (go_description g) (go_time g)
      (omap (read_track b) (go_tracks g)).

Definition set_gpx (f : gpx_obj -> gpx_obj) (b : builder) : builder :=
  Builder (f (b_gpx b)) (b_tracks b) (b_segments b) (b_desc_parts b).

Definition set_desc_parts (f : list string -> list string) (b : builder)
    : builder :=
  Builder (b_gpx b) (b_tracks b) (b_segments b) (f (b_desc_parts b)).

(** [gpxpy.gpx.GPX()] *)
Definition new_gpx : gpx_obj := GpxObj VNone VNone VNone None [].

(** [gpxpy.gpx.GPXTrack()]: a fresh object, returned by reference. *)
Definition new_track : Prog builder nat :=
  fun b =>
    (Returns (length (b_tracks b)),
     Builder (b_gpx b) (b_tracks b ++ [TrackObj VNone []])%list
             (b_segments b) (b_desc_parts b)).

(** [gpxpy.gpx.GPXTrackSegment()] *)
Definition new_segment : Prog builder nat :=
  fun b =>
    (Returns (length (b_segments b)),
     Builder (b_gpx b) (b_tracks b)
             (b_segments b ++ [SegmentObj []])%list (b_desc_parts b)).

Definition update_track (r : nat) (f : track_obj -> track_obj)
    : Prog builder unit :=
  modify (fun b =>
    Builder (b_gpx b) (alter f r (b_tracks b)) (b_segments b)
            (b_desc_parts b)).

Definition update_segment (r : nat) (f : segment_obj -> segment_obj)
    : Prog builder unit :=
  modify (fun b =>
    Builder (b_gpx b) (b_tracks b) (alter f r (b_segments b))
            (b_desc_parts b)).

(** [desc_parts.append(line)] *)
Definition desc_append (line : string) : Prog builder unit :=
  modify (set_desc_parts (fun parts => (parts ++ [line])%list)).

(** The three [if] statements under [# Build description]. *)
Definition describe_location (metadata : gmap string value)
    : Prog builder unit :=
  if truthy (dict_get metadata "geo_city") then
    let location_parts :=
      [dict_get metadata "geo_city";
       dict_get metadata "geo_state";
       dict_get metadata "geo_country"] in
    let! location := lift (py_join ", " (List.filter truthy location_parts)) in
    if truthy (VStr location) then desc_append ("Location: " +:+ location)
    else ret tt
  else ret tt.

Definition describe_distance (metadata : gmap string value)
    : Prog builder unit :=
  if truthy (dict_get metadata "distance") then
    let! distance := lift (py_getitem (VDict metadata) (VStr "distance")) in
    let! dist_km := lift (py_truediv distance 100000) in
    desc_append ("Distance: " +:+ format_f 2 dist_km +:+ " km")
  else ret tt.

Definition describe_elevation (metadata : gmap string value)
    : Prog builder unit :=
  if truthy (dict_get metadata "elevation") then
    let! elevation := lift (py_getitem (VDict metadata) (VStr "elevation")) in
    let! ele_m := lift (py_truediv elevation 100) in
    let! rounded := lift (py_round ele_m) in
    desc_append ("Elevation gain: " +:+ str_int rounded +:+ " m")
  else ret tt.

(** [segment.points.append(GPXTrackPoint(..))] *)
Definition add_track_point (segment : nat) (point : point)
    : Prog builder unit :=
  let track_point :=
    new_track_point (lat point) (lng point) (ele point) in
  update_segment segment (fun s =>
    SegmentObj (so_points s ++ [track_point])%list).

(** [build_gpx(points, route_name, metadata)] *)
Definition build_gpx (points : list point) (route_name : value)
    (metadata : gmap string value) : Prog builder GPX :=
  modify (set_gpx (fun _ => new_gpx)) ;;;
  modify (set_gpx (fun g =>
    GpxObj (VStr "Biketerra GPX Exporter") (go_name g) (go_description g)
           (go_time g) (go_tracks g))) ;;;
  modify (set_desc_parts (fun _ => [])) ;;;
  describe_location metadata ;;;
  describe_distance metadata ;;;
  describe_elevation metadata ;;;
  let! desc_parts := gets b_desc_parts in
  let description := String.concat "; " desc_parts in
  modify (set_gpx (fun g =>
    GpxObj (go_creator g) route_name (VStr description) (Some now)
           (go_tracks g))) ;;;
  let! track := new_track in
  update_track track (fun t => TrackObj route_name (to_segments t)) ;;;
  modify (set_gpx (fun g =>
    GpxObj (go_creator g) (go_name g) (go_description g) (go_time g)
           (go_tracks g ++ [track])%list)) ;;;
  let! segment := new_segment in
  update_track track (fun t =>
    TrackObj (to_name t) (to_segments t ++ [segment])%list) ;;;
  for_each points (add_track_point segment) ;;;
  gets read_gpx.

(** A call [build_gpx(points, route_name, metadata)]. *)
Definition build (points : list point) (route_name : value)
    (metadata : gmap string value) : result GPX :=
  fst (build_gpx points route_name metadata (Builder new_gpx [] [] [])).

(** ** The command-line driver *)

(** What the outside world supplies: the answer of the network to
    [fetch_route_data(route_id)], the serializer [gpx.to_xml()], which
    paths [open(path, "w")] accepts, and which texts the file's UTF-8
    encoder accepts (it refuses a text that holds a lone surrogate). *)
Variable fetch_route_data : string -> result value.
Variable to_xml : GPX -> result string.
Variable writable : string -> bool.
Variable encodable : string -> bool.

(** What a run can be observed to do: the lines it prints, the files on
    disk, and the paths it opened for writing, in order. *)
Record world : Type := World {
  w_stdout : list string;
  w_stderr : list string;
  w_files : gmap string string;
  w_opened : list string
}.

(** [print(line)] *)
Definition print (line : string) : Prog world unit :=
  modify (fun w =>
    World (w_stdout w ++ [line])%list (w_stderr w) (w_files w) (w_opened w)).

(** [print(line, file=sys.stderr)] *)
Definition print_err (line : string) : Prog world unit :=
  modify (fun w =>
    World (w_stdout w) (w_stderr w ++ [line])%list (w_files w) (w_opened w)).

(** [open(path, "w", encoding="utf-8")]: creates or truncates the file. *)
Definition open_w (path : string) : Prog world unit :=
  if writable path then
    modify (fun w =>
      World (w_stdout w) (w_stderr w) (<[path := EmptyString]> (w_files w))
            (w_opened w ++ [path])%list)
  else raise OSError.

(** [f.write(text)] on the file just opened at [path]: the text is
    encoded first, and a text the encoder refuses raises
    [UnicodeEncodeError] with nothing written. *)
Definition write (path text : string) : Prog world unit :=
  if encodable text then
    modify (fun w =>
      World (w_stdout w) (w_stderr w)
            (<[path := default EmptyString (w_files w !! path) +:+ text]>
               (w_files w))
            (w_opened w))
  else raise UnicodeEncodeError.

(** [sys.exit(code)] *)
Definition sys_exit {A} (code : Z) : Prog world A := raise (SystemExit code).

(** [try: body except ...: handler]; a handler that does not take the
    exception re-raises it. *)
Definition try_except {S A} (body : Prog S A) (handler : exception -> Prog S A)
    : Prog S A :=
  fun s =>
    match body s with
    | (Returns a, s') => (Returns a, s')
    | (Raises e, s') => handler e s'
    end.

(** The [except] clauses of [main], in order. *)
Definition main_handler (e : exception) : Prog world unit :=
  match e with
  | HTTPError =>
      print_err ("Error fetching route: " +:+ str_exception e) ;;;
      sys_exit 1
  | RequestException =>
      print_err ("Network error: " +:+ str_exception e) ;;;
      sys_exit 1
  | KeyError | IndexError | TypeError =>
      print_err ("Error parsing route data: " +:+ str_exception e) ;;;
      sys_exit 1
  | _ => raise e
  end.

(** [main()], after [parse_args] has produced [route_id] and [output]. *)
Definition main (route_id : string) (output : option string)
    : Prog world unit :=
  let output_file :=
    match output with
    | Some out => if truthy (VStr out) then out else route_id +:+ ".gpx"
    | None => route_id +:+ ".gpx"
    end in
  try_except
    (print ("Fetching route " +:+ route_id +:+ "...") ;;;
     let! data := lift (fetch_route_data route_id) in
     let! (points, metadata, route_name) := lift (decode data) in
     if negb (match points with [] => false | _ => true end) then
       print_err "Error: No track points found in route data" ;;;
       sys_exit 1
     else
       let! gpx := lift (build points route_name metadata) in
       open_w output_file ;;;
       (let! xml := lift (to_xml gpx) in
        write output_file xml) ;;;
       print ("Wrote " +:+ output_file +:+ " (" +:+
              str_int (Z.of_nat (length points)) +:+ " points)") ;;;
       print ("Route: " +:+ py_str route_name) ;;;
       (if truthy (dict_get metadata "distance") then
          let! distance :=
            lift (py_getitem (VDict metadata) (VStr "distance")) in
          let! km := lift (py_truediv distance 100000) in
          print ("Distance: " +:+ format_f 2 km +:+ " km")
        else ret tt) ;;;
       (if truthy (dict_get metadata "elevation") then
          let! elevation :=
            lift (py_getitem (VDict metadata) (VStr "elevation")) in
          let! m := lift (py_truediv elevation 100) in
          print ("Elevation: " +:+ format_f 0 m +:+ " m")
        else ret tt))
    main_handler.

(** What the interpreter does with an exception that leaves [main]:
    [SystemExit] sets the exit status, anything else prints its traceback
    and exits with status 1. *)
Definition uncaught (e : exception) (w : world) : Z * world :=
  match e with
  | SystemExit code => (code, w)
  | _ =>
      (1, World (w_stdout w) (w_stderr w ++ [traceback e])%list
                (w_files w) (w_opened w))
  end.

(** The process: exit status and final world. *)
Definition run_main (route_id : string) (output : option string) (w : world)
    : Z * world :=
  match main route_id output w with
  | (Returns _, w') => (0, w')
  | (Raises e, w') => uncaught e w'
  end.

(** How the process ends once [e] has reached the [except] clauses in
    world [w]. *)
Definition exit_on (e : exception) (w : world) : Z * world :=
  match main_handler e w with
  | (Returns _, w') => (0, w')
  | (Raises e', w') => uncaught e' w'
  end.

End Runtime.

(** ** Views of the store

    The places of the flattened store the specification names, read the
    way [extract_route_info] reads them. *)

(** [data["nodes"][2]["data"]] *)
Definition route_data_of (data : value) : result value :=
  try! nodes := py_getitem data (VStr "nodes") in
  try! node := py_getitem nodes (VInt 2) in
  py_getitem node (VStr "data").

(** The route record, [route_data[0]]. *)
Definition route_info_of (data : value) : result value :=
  try! route_data := route_data_of data in
  py_getitem route_data (VInt 0).

(** The metadata record, [deref(route_data, route_info["route"])]. *)
Definition route_meta_struct_of (data : value) : result value :=
  try! route_data := route_data_of data in
  try! route_info := route_info_of data in
  try! route_meta_idx := py_getitem route_info (VStr "route") in
  deref route_data route_meta_idx.

(** The point-index list, [deref(route_data, route_info["latLngData"])]. *)
Definition point_indices_of (data : value) : result value :=
  try! route_data := route_data_of data in
  try! route_info := route_info_of data in
  try! lat_lng_idx := py_getitem route_info (VStr "latLngData") in
  deref route_data lat_lng_idx.

(** The test [isinstance(idx, int) and idx > 0] of the metadata loop. *)
Definition is_pointer (raw : value) : bool :=
  isinstance_int raw && (0 <? int_val raw).

(** ** The loops as functions of the accumulator *)

(** What one round of [for field in fields] stores, if anything. *)
Definition field_value (route_data route_meta_struct : value) (field : string)
    : result (option value) :=
  try! present := py_contains field route_meta_struct in
  if (present : bool) then
    try! idx := py_getitem route_meta_struct (VStr field) in
    if is_pointer idx then
      try! v := deref route_data idx in Returns (Some v)
    else Returns None
  else Returns None.

Fixpoint run_fields (route_data route_meta_struct : value) (fs : list string)
    (metadata : gmap string value) : result unit * gmap string value :=
  match fs with
  | [] => (Returns tt, metadata)
  | f :: fs' =>
      match field_value route_data route_meta_struct f with
      | Returns (Some v) =>
          run_fields route_data route_meta_struct fs' (<[f := v]> metadata)
      | Returns None => run_fields route_data route_meta_struct fs' metadata
      | Raises e => (Raises e, metadata)
      end
  end.

Fixpoint run_points (route_data : value) (items : list value)
    (points : list point) : result unit * list point :=
  match items with
  | [] => (Returns tt, points)
  | idx :: items' =>
      match resolve_point route_data idx with
      | Returns p => run_points route_data items' (points ++ [p])%list
      | Raises e => (Raises e, points)
      end
  end.

(** The decoder as a function of the store alone. *)
Definition decode_fun (py_repr : value -> string) (data : value)
    : result (list point * gmap string value * value) :=
  try! route_data := route_data_of data in
  try! route_info := py_getitem route_data (VInt 0) in
  try! lat_lng_idx := py_getitem route_info (VStr "latLngData") in
  try! route_meta_idx := py_getitem route_info (VStr "route") in
  try! route_meta_struct := deref route_data route_meta_idx in
  match run_fields route_data route_meta_struct fields ∅ with
  | (Raises e, _) => Raises e
  | (Returns _, metadata) =>
      try! point_indices := deref route_data lat_lng_idx in
      try! items := py_iter point_indices in
      match run_points route_data items [] with
      | (Raises e, _) => Raises e
      | (Returns _, points) =>
          Returns (points, metadata, route_name_of py_repr metadata)
      end
  end.

(** ** The description, line by line *)

(** The lines of the description, each as a function of the metadata. *)
Definition location_line (md : gmap string value) : result (list string) :=
  if truthy (dict_get md "geo_city") then
    try! location :=
      py_join ", " (List.filter truthy [dict_get md "geo_city";
                                        dict_get md "geo_state";
                                        dict_get md "geo_country"]) in
    Returns (if truthy (VStr location) then ["Location: " +:+ location]
             else [])
  else Returns [].

Definition distance_line (md : gmap string value) : result (list string) :=
  if truthy (dict_get md "distance") then
    try! distance := py_getitem (VDict md) (VStr "distance") in
    try! dist_km := py_truediv distance 100000 in
    Returns ["Distance: " +:+ format_f 2 dist_km +:+ " km"]
  else Returns [].

Definition elevation_line (md : gmap string value) : result (list string) :=
  if truthy (dict_get md "elevation") then
    try! elevation := py_getitem (VDict md) (VStr "elevation") in
    try! ele_m := py_truediv elevation 100 in
    try! rounded := py_round ele_m in
    Returns ["Elevation gain: " +:+ str_int rounded +:+ " m"]
  else Returns [].

(** The strings among [parts] that are not empty. *)
Definition nonempty_text (v : value) : option string :=
  match v with
  | VStr s => if String.eqb s EmptyString then None else Some s
  | _ => None
  end.

Definition nonempty_texts (parts : list value) : list string :=
  omap nonempty_text parts.

(** The track point [build_gpx] makes of a decoded point. *)
Definition track_point_of (p : point) : GPXTrackPoint :=
  new_track_point (lat p) (lng p) (ele p).

Definition appended (b : builder) (lines : list string) : builder :=
  Builder (b_gpx b) (b_tracks b) (b_segments b) (b_desc_parts b ++ lines)%list.

Definition after_lines (r : result (list string)) (b : builder)
    : result unit * builder :=
  match r with
  | Returns lines => (Returns tt, appended b lines)
  | Raises e => (Raises e, b)
  end.

(** ** Classes of exceptions and shorthands *)

Definition structural {A} (r : result A) : Prop :=
  forall e, r = Raises e -> StructureError e.

(** Exceptions other than [SystemExit]. *)
Definition ordinary (e : exception) : Prop := forall c, e <> SystemExit c.

(** The title is absent from the metadata, or present and empty. *)
Definition title_missing (md : gmap string value) : Prop :=
  md !! "title" = None
  \/ exists t, md !! "title" = Some t /\ truthy t = false.

Definition fetching (route_id : string) (w : world) : world :=
  World (w_stdout w ++ ["Fetching route " +:+ route_id +:+ "..."])%list
        (w_stderr w) (w_files w) (w_opened w).

(** ** Example stores *)

(** The document around a store: the third node's [data] array. *)
Definition route_document (store : list value) : value :=
  VDict {[ "nodes" :=
    VList [VNone; VNone; VDict {[ "data" := VList store ]}] ]}.

Definition route_record : value :=
  VDict (<["latLngData" := VInt 2]> {[ "route" := VInt 1 ]}).

(** A route with a full metadata record and two points. *)
Definition sample_store : list value :=
  [ route_record;
    VDict (<["id" := VInt 3]> (<["title" := VInt 4]>
          (<["distance" := VInt 5]> (<["elevation" := VInt 6]>
          (<["geo_city" := VInt 7]> {[ "geo_state" := VInt 8 ]})))));
    VList [VInt 9; VInt 10];
    VInt 8771; VStr "Sunset Loop"; VInt 250000; VInt 12345;
    VStr "Boulder"; VStr "Colorado";
    VList [VInt 11; VInt 12; VInt 13];
    VList [VInt 14; VInt 15; VInt 16];
    VInt 40; VInt (-105); VInt 1600;
    VInt 41; VInt (-106); VInt 1620 ].

Definition sample_metadata : gmap string value :=
  <["id" := VInt 8771]> (<["title" := VStr "Sunset Loop"]>
  (<["distance" := VInt 250000]> (<["elevation" := VInt 12345]>
  (<["geo_city" := VStr "Boulder"]> {[ "geo_state" := VStr "Colorado" ]})))).

Definition sample_points : list point :=
  [ Point (VInt 40) (VInt (-105)) (VInt 1600);
    Point (VInt 41) (VInt (-106)) (VInt 1620) ].

Definition sample_gpx : GPX :=
  Gpx (VStr "Biketerra GPX Exporter") (VStr "Sunset Loop")
      (VStr "Location: Boulder, Colorado; Distance: 2.50 km; Elevation gain: 123 m")
      (Some 0)
      [Track (VStr "Sunset Loop")
         [Segment [TrackPoint (VInt 40) (VInt (-105)) (VInt 1600);
                   TrackPoint (VInt 41) (VInt (-106)) (VInt 1620)]]].

(** A metadata record that stores its id as the literal [0]; no points. *)
Definition literal_record : gmap string value :=
  <["id" := VInt 0]> {[ "title" := VInt 3 ]}.

Definition literal_store : list value :=
  [ route_record; VDict literal_record; VList []; VStr "Sunset Loop" ].

Definition literal_metadata : gmap string value :=
  {[ "title" := VStr "Sunset Loop" ]}.

(** A metadata record with boolean raw values. *)
Definition bool_record : gmap string value :=
  <["id" := VBool true]> {[ "title" := VBool false ]}.

Definition bool_store : list value :=
  [ route_record; VDict bool_record; VList [] ].

Definition bool_metadata : gmap string value :=
  {[ "id" := VDict bool_record ]}.

(** One point whose reference list has four elements, and one with two. *)
Definition long_refs_store : list value :=
  [ route_record; VDict ∅; VList [VInt 3];
    VList [VInt 4; VInt 5; VInt 6; VInt 7];
    VInt 40; VInt (-105); VInt 1600; VInt 99 ].

Definition short_refs_store : list value :=
  [ route_record; VDict ∅; VList [VInt 3];
    VList [VInt 4; VInt 5];
    VInt 40; VInt (-105) ].

(** No points, and a distance the builder could not divide. *)
Definition empty_route_store : list value :=
  [ route_record; VDict {[ "distance" := VInt 3 ]}; VList []; VStr "far" ].

(** A stand-in for [repr] where no float or container is rendered. *)
Definition plain_repr (v : value) : string := EmptyString.

(** Stand-ins for the exception texts, the serializer and the file
    system of a run. *)
Definition plain_text (e : exception) : string := "error".
Definition sample_xml (gpx : GPX) : result string := Returns "<gpx/>".
Definition any_path (path : string) : bool := true.
Definition any_text (text : string) : bool := true.
Definition no_text (text : string) : bool := false.
Definition empty_world : world := World [] [] ∅ [].

(** ** The fetch collaborator *)

(** What [requests.get] hands back, as far as the program looks at it: the
    status code and what [response.json()] gives. *)
Record response : Type := Response {
  status_code : Z;
  json : result value
}.

(** [response.raise_for_status()]: a 4xx or 5xx status is an [HTTPError]. *)
Definition raise_for_status (r : response) : result unit :=
  if (400 <=? status_code r) && (status_code r <? 600) then Raises HTTPError
  else Returns tt.

(** [fetch_route_data(route_id)], over the answer of the network to
    [requests.get(url, timeout=30)]. *)
Definition fetch_route_data (requests_get : string -> Z -> result response)
    (route_id : string) : result value :=
  let url := "https://biketerra.com/routes/" +:+ route_id +:+ "/__data.json" in
  try! response := requests_get url 30 in
  try! _ := raise_for_status response in
  json response.

(** ** What a run leaves behind *)

(** [args.output or f"{route_id}.gpx"] *)
Definition output_file_of (route_id : string) (output : option string)
    : string :=
  match output with
  | Some out => if truthy (VStr out) then out else route_id +:+ ".gpx"
  | None => route_id +:+ ".gpx"
  end.

(** The elevation line of the summary [main] prints, as a function of the
    metadata. *)
Definition elevation_report (md : gmap string value) : result (list string) :=
  if truthy (dict_get md "elevation") then
    try! elevation := py_getitem (VDict md) (VStr "elevation") in
    try! m := py_truediv elevation 100 in
    Returns ["Elevation: " +:+ format_f 0 m +:+ " m"]
  else Returns [].

(** [w] after [lines] went to standard output. *)
Definition printed (w : world) (lines : list string) : world :=
  World (w_stdout w ++ lines)%list (w_stderr w) (w_files w) (w_opened w).

(** [w] after [line] went to standard error. *)
Definition complained (w : world) (line : string) : world :=
  World (w_stdout w) (w_stderr w ++ [line])%list (w_files w) (w_opened w).

(** [w] after [path] was opened for writing and [text] written to it. *)
Definition written (w : world) (path text : string) : world :=
  World (w_stdout w) (w_stderr w) (<[path := text]> (w_files w))
        (w_opened w ++ [path])%list.

(** Values [/] accepts on its left. *)
Definition is_number (v : value) : bool :=
  match v with
  | VInt _ | VBool _ | VFloat _ => true
  | _ => false
  end.

(** ** Further shorthands and examples *)

(** The two lines [main] prints after a successful write. *)
Definition wrote_lines (py_repr : value -> string) (out : string) (n : nat)
    (nm : value) : list string :=
  ["Wrote " +:+ out +:+ " (" +:+ str_int (Z.of_nat n) +:+ " points)";
   "Route: " +:+ py_str py_repr nm].

(** A metadata record whose title points beyond the end of the store. *)
Definition dangling_store : list value :=
  [ route_record; VDict {[ "title" := VInt 9 ]}; VList [] ].

(** One point, and a distance that is a string. *)
Definition ill_typed_store : list value :=
  [ route_record; VDict {[ "distance" := VInt 3 ]}; VList [VInt 4];
    VStr "far"; VList [VInt 5; VInt 5; VInt 5]; VInt 7 ].

Definition ill_typed_metadata : gmap string value :=
  {[ "distance" := VStr "far" ]}.

(** A collaborator that cannot serialize, one that cannot open, and a
    network that answers 404 with a well-formed document. *)
Definition failing_xml (gpx : GPX) : result string := Raises ValueError.
Definition no_path (path : string) : bool := false.
Definition not_found (url : string) (timeout : Z) : result response :=
  Returns (Response 404 (Returns (route_document sample_store))).

(** The metadata record of [sample_store]. *)
Definition sample_record : gmap string value :=
  <["id" := VInt 3]> (<["title" := VInt 4]>
  (<["distance" := VInt 5]> (<["elevation" := VInt 6]>
  (<["geo_city" := VInt 7]> {[ "geo_state" := VInt 8 ]})))).

(** Metadata with an elevation that cannot be rounded. *)
Definition infinite_metadata : gmap string value :=
  {[ "elevation" := VFloat (S754_infinity false) ]}.

(** The network answering with the document of [sample_store]. *)
Definition sample_fetch (route_id : string) : result value :=
  Returns (route_document sample_store).

(** A route record whose ["route"] pointer leads to [None] and whose
    ["latLngData"] pointer leads nowhere. *)
Definition null_record : gmap string value :=
  <["latLngData" := VInt 99]> {[ "route" := VInt 1 ]}.

Definition null_record_store : list value :=
  [ VDict null_record; VNone ].

(** * Proofs *)

(** ** Reasoning about programs *)

Lemma metadata_step_run rd rms f fr :
  metadata_step rd rms f fr =
    match field_value rd rms f with
    | Returns (Some v) =>
        (Returns tt, set_metadata (fun metadata => <[f := v]> metadata) fr)
    | Returns None => (Returns tt, fr)
    | Raises e => (Raises e, fr)
    end.
Proof.
  unfold metadata_step, field_value, is_pointer, bind, lift, rbind.
  destruct (py_contains f rms) as [[|]|e]; try reflexivity.
  destruct (py_getitem rms (VStr f)) as [idx|e]; try reflexivity.
  destruct (isinstance_int idx && (0 <? int_val idx)); try reflexivity.
  destruct (deref rd idx); reflexivity.
Qed.

Lemma metadata_loop_run rd rms fs fr :
  for_each fs (metadata_step rd rms) fr =
    let '(r, md) := run_fields rd rms fs (fr_metadata fr) in
    (r, Frame (fr_data fr) md (fr_points fr)).
Proof.
  revert fr. induction fs as [|f fs IH]; intros [d md pts]; simpl.
  - reflexivity.
  - unfold bind. rewrite metadata_step_run.
    destruct (field_value rd rms f) as [[v|]|e]; simpl; try reflexivity.
    + rewrite IH. reflexivity.
    + rewrite IH. reflexivity.
Qed.

Lemma point_loop_run rd items fr :
  for_each items (point_step rd) fr =
    let '(r, pts) := run_points rd items (fr_points fr) in
    (r, Frame (fr_data fr) (fr_metadata fr) pts).
Proof.
  revert fr. induction items as [|idx items IH]; intros [d md pts]; simpl.
  - reflexivity.
  - unfold bind at 1. unfold point_step at 1. unfold bind, lift.
    destruct (resolve_point rd idx) as [p|e]; simpl; [|reflexivity].
    rewrite IH. reflexivity.
Qed.

Lemma extract_route_info_run py_repr fr :
  exists fr',
    extract_route_info py_repr fr = (decode_fun py_repr (fr_data fr), fr')
    /\ fr_data fr' = fr_data fr.
Proof.
  destruct fr as [data md0 pts0].
  unfold extract_route_info, decode_fun, route_data_of.
  generalize fields; intros fs.
  unfold bind at 1. unfold gets at 1. cbn [fr_data].
  unfold bind at 1, lift at 1, rbind at 1.
  destruct (py_getitem data (VStr "nodes")) as [nodes|e];
    [|eexists; split; reflexivity].
  unfold bind at 1, lift at 1. cbn [rbind].
  destruct (py_getitem nodes (VInt 2)) as [node|e];
    [|eexists; split; reflexivity].
  unfold bind at 1, lift at 1. cbn [rbind].
  destruct (py_getitem node (VStr "data")) as [rd|e];
    [|eexists; split; reflexivity].
  unfold bind at 1, lift at 1. cbn [rbind].
  destruct (py_getitem rd (VInt 0)) as [ri|e];
    [|eexists; split; reflexivity].
  unfold bind at 1, lift at 1. cbn [rbind].
  destruct (py_getitem ri (VStr "latLngData")) as [lli|e];
    [|eexists; split; reflexivity].
  unfold bind at 1, lift at 1. cbn [rbind].
  destruct (py_getitem ri (VStr "route")) as [rmi|e];
    [|eexists; split; reflexivity].
  unfold bind at 1, lift at 1. cbn [rbind].
  destruct (deref rd rmi) as [rms|e]; [|eexists; split; reflexivity].
  unfold bind at 1, modify at 1.
  unfold bind at 1. rewrite metadata_loop_run.
  unfold set_metadata at 1. cbn [fr_data fr_metadata fr_points rbind].
  destruct (run_fields rd rms fs ∅) as [[[]|e] md];
    [|eexists; split; reflexivity].
  unfold bind at 1, gets at 1. cbn [fr_metadata].
  unfold bind at 1, lift at 1.
  destruct (deref rd lli) as [pis|e]; [|eexists; split; reflexivity].
  unfold bind at 1, modify at 1. unfold set_points at 1.
  cbn [fr_data fr_metadata fr_points rbind].
  unfold bind at 1, lift at 1.
  destruct (py_iter pis) as [items|e]; [|eexists; split; reflexivity].
  unfold bind at 1. rewrite point_loop_run.
  cbn [fr_data fr_metadata fr_points rbind].
  destruct (run_points rd items []) as [[[]|e] pts];
    eexists; split; reflexivity.
Qed.

Lemma decode_run py_repr data : decode py_repr data = decode_fun py_repr data.
Proof.
  unfold decode.
  destruct (extract_route_info_run py_repr (Frame data ∅ [])) as (fr' & E & _).
  rewrite E. reflexivity.
Qed.

Lemma rbind_Returns {A B} (r : result A) (k : A -> result B) b :
  rbind r k = Returns b -> exists a, r = Returns a /\ k a = Returns b.
Proof. destruct r as [a|e]; simpl; [eauto | discriminate]. Qed.

Ltac rbind_inv H :=
  let x := fresh "x" in
  let Hx := fresh "Hx" in
  apply rbind_Returns in H; destruct H as (x & Hx & H).

(** A successful decode went through every station of the store. *)
Lemma decode_Returns_inv py_repr data pts md nm :
  decode py_repr data = Returns (pts, md, nm) ->
  exists rd rms pis items,
    route_data_of data = Returns rd
    /\ route_meta_struct_of data = Returns rms
    /\ point_indices_of data = Returns pis
    /\ py_iter pis = Returns items
    /\ run_fields rd rms fields ∅ = (Returns tt, md)
    /\ run_points rd items [] = (Returns tt, pts)
    /\ nm = route_name_of py_repr md.
Proof.
  rewrite decode_run. unfold decode_fun. intros H.
  rbind_inv H. rename x into rd, Hx into Hrd.
  rbind_inv H. rename x into ri, Hx into Hri.
  rbind_inv H. rename x into lli, Hx into Hlli.
  rbind_inv H. rename x into rmi, Hx into Hrmi.
  rbind_inv H. rename x into rms, Hx into Hrms.
  destruct (run_fields rd rms fields ∅) as [[[]|e] md'] eqn:Hf; [|discriminate].
  rbind_inv H. rename x into pis, Hx into Hpis.
  rbind_inv H. rename x into items, Hx into Hit.
  destruct (run_points rd items []) as [[[]|e] pts'] eqn:Hp; [|discriminate].
  injection H as -> -> <-.
  exists rd, rms, pis, items.
  unfold route_meta_struct_of, point_indices_of, route_info_of.
  rewrite Hrd. simpl. rewrite Hri. simpl. rewrite Hrmi, Hlli. simpl.
  repeat split; assumption.
Qed.

(** *** Only structure errors leave the decoder *)

Lemma structural_Returns {A} (a : A) : structural (Returns a).
Proof. intros e H. discriminate. Qed.

Lemma structural_Raises {A} e : StructureError e -> structural (@Raises A e).
Proof. intros He e' H. injection H as <-. exact He. Qed.

Lemma structural_rbind {A B} (r : result A) (k : A -> result B) :
  structural r -> (forall a, structural (k a)) -> structural (rbind r k).
Proof.
  intros Hr Hk e. destruct r as [a|e']; simpl.
  - apply Hk.
  - intros H. injection H as <-. apply Hr. reflexivity.
Qed.

Lemma structural_Raises_inv {A} e : structural (@Raises A e) -> StructureError e.
Proof. intros H. apply H. reflexivity. Qed.

Lemma KeyError_structure : StructureError KeyError.
Proof. left. reflexivity. Qed.

Lemma IndexError_structure : StructureError IndexError.
Proof. right. left. reflexivity. Qed.

Lemma TypeError_structure : StructureError TypeError.
Proof. right. right. reflexivity. Qed.

Create HintDb structure.
#[local] Hint Resolve structural_Returns structural_Raises structural_rbind
  KeyError_structure IndexError_structure TypeError_structure : structure.

Lemma structural_seq_getitem {A} (l : list A) i : structural (seq_getitem l i).
Proof.
  unfold seq_getitem.
  destruct (_ && _); [destruct (l !! _)|]; auto with structure.
Qed.

Lemma structural_py_getitem obj key : structural (py_getitem obj key).
Proof.
  destruct obj; simpl; auto with structure.
  - destruct (isinstance_int key);
      auto using structural_seq_getitem with structure.
  - destruct (isinstance_int key);
      auto using structural_seq_getitem with structure.
  - destruct key; try destruct (d !! s); auto with structure.
Qed.

Lemma structural_deref data index : structural (deref data index).
Proof. apply structural_py_getitem. Qed.

Lemma structural_py_contains item c : structural (py_contains item c).
Proof. destruct c; simpl; auto with structure. Qed.

Lemma structural_py_iter v : structural (py_iter v).
Proof. destruct v; simpl; auto with structure. Qed.

#[local] Hint Resolve structural_py_getitem structural_deref
  structural_py_contains structural_py_iter : structure.

Lemma structural_field_value rd rms f : structural (field_value rd rms f).
Proof.
  unfold field_value. apply structural_rbind; auto with structure.
  intros [|]; auto with structure.
  apply structural_rbind; auto with structure.
  intros idx. destruct (is_pointer idx); auto with structure.
Qed.

Lemma structural_resolve_point rd idx : structural (resolve_point rd idx).
Proof.
  unfold resolve_point.
  repeat (apply structural_rbind; [auto with structure | intros ?]).
  auto with structure.
Qed.

Lemma structural_run_fields rd rms fs md :
  structural (fst (run_fields rd rms fs md)).
Proof.
  revert md. induction fs as [|f fs IH]; intros md; simpl.
  - auto with structure.
  - pose proof (structural_field_value rd rms f) as Hf.
    destruct (field_value rd rms f) as [[v|]|e]; simpl; auto.
    apply structural_Raises, (structural_Raises_inv _ Hf).
Qed.

Lemma structural_run_points rd items pts :
  structural (fst (run_points rd items pts)).
Proof.
  revert pts. induction items as [|idx items IH]; intros pts; simpl.
  - auto with structure.
  - pose proof (structural_resolve_point rd idx) as Hp.
    destruct (resolve_point rd idx) as [p|e]; simpl; auto.
    apply structural_Raises, (structural_Raises_inv _ Hp).
Qed.

Lemma structural_route_data_of data : structural (route_data_of data).
Proof.
  unfold route_data_of.
  repeat (apply structural_rbind; [auto with structure | intros ?]).
  auto with structure.
Qed.

Lemma structural_decode py_repr data : structural (decode py_repr data).
Proof.
  rewrite decode_run. unfold decode_fun.
  apply structural_rbind; [apply structural_route_data_of | intros rd].
  apply structural_rbind; [auto with structure | intros ri].
  apply structural_rbind; [auto with structure | intros lli].
  apply structural_rbind; [auto with structure | intros rmi].
  apply structural_rbind; [auto with structure | intros rms].
  pose proof (structural_run_fields rd rms fields ∅) as Hf.
  destruct (run_fields rd rms fields ∅) as [[[]|e] md];
    [|apply structural_Raises, (structural_Raises_inv _ Hf)].
  apply structural_rbind; [auto with structure | intros pis].
  apply structural_rbind; [auto with structure | intros items].
  pose proof (structural_run_points rd items []) as Hp.
  destruct (run_points rd items []) as [[[]|e] pts];
    [|apply structural_Raises, (structural_Raises_inv _ Hp)].
  auto with structure.
Qed.

(** *** The metadata loop *)

Lemma run_fields_notin rd rms fs md0 md f :
  run_fields rd rms fs md0 = (Returns tt, md) ->
  ~ In f fs -> md !! f = md0 !! f.
Proof.
  revert md0. induction fs as [|g fs IH]; intros md0 H Hf; simpl in H.
  - injection H as <-. reflexivity.
  - assert (g <> f /\ ~ In f fs) as [Hg Hfs] by (simpl in Hf; tauto).
    destruct (field_value rd rms g) as [[v|]|e]; [| |discriminate].
    + rewrite (IH _ H Hfs). apply lookup_insert_ne. exact Hg.
    + apply (IH _ H Hfs).
Qed.

Lemma run_fields_in rd rms fs md0 md f :
  run_fields rd rms fs md0 = (Returns tt, md) ->
  In f fs ->
  exists o, field_value rd rms f = Returns o
    /\ md !! f = match o with Some v => Some v | None => md0 !! f end.
Proof.
  revert md0. induction fs as [|g fs IH]; intros md0 H Hf; simpl in H.
  - destruct Hf.
  - destruct (field_value rd rms g) as [[v|]|e] eqn:Hg; [| |discriminate].
    + destruct (in_dec string_dec f fs) as [Hin|Hout].
      * destruct (IH _ H Hin) as (o & Ho & Hmd). exists o. split; [exact Ho|].
        rewrite Hmd. destruct o as [w|]; [reflexivity|].
        destruct (decide (g = f)) as [->|Hne].
        -- rewrite Ho in Hg. discriminate.
        -- apply lookup_insert_ne. exact Hne.
      * assert (g = f) as -> by (destruct Hf; tauto).
        exists (Some v). split; [exact Hg|].
        rewrite (run_fields_notin _ _ _ _ _ _ H Hout).
        apply lookup_insert_eq.
    + destruct (in_dec string_dec f fs) as [Hin|Hout].
      * apply (IH _ H Hin).
      * assert (g = f) as -> by (destruct Hf; tauto).
        exists None. split; [exact Hg|].
        apply (run_fields_notin _ _ _ _ _ _ H Hout).
Qed.

Lemma field_value_dict rd d f :
  field_value rd (VDict d) f =
    match d !! f with
    | Some raw =>
        if is_pointer raw then
          match deref rd raw with
          | Returns v => Returns (Some v)
          | Raises e => Raises e
          end
        else Returns None
    | None => Returns None
    end.
Proof.
  unfold field_value. simpl.
  destruct (d !! f) as [raw|]; simpl; [|reflexivity].
  destruct (is_pointer raw); [|reflexivity].
  destruct (deref rd raw); reflexivity.
Qed.

Lemma is_pointer_true raw :
  is_pointer raw = true <->
  (exists i, raw = VInt i /\ 0 < i) \/ raw = VBool true.
Proof.
  unfold is_pointer. split.
  - destruct raw as [|[|]|i| | | |]; simpl; try discriminate.
    + intros _. right. reflexivity.
    + intros H. left. exists i. split; [reflexivity|]. lia.
  - intros [(i & -> & Hi)| ->]; simpl; [|reflexivity].
    apply Z.ltb_lt. exact Hi.
Qed.

(** What the decoded metadata holds for a recognized field. *)
Lemma decoded_field py_repr data rd d pts md nm field :
  decode py_repr data = Returns (pts, md, nm) ->
  route_data_of data = Returns rd ->
  route_meta_struct_of data = Returns (VDict d) ->
  In field fields ->
  match d !! field with
  | Some raw =>
      if is_pointer raw then
        exists v, deref rd raw = Returns v /\ md !! field = Some v
      else md !! field = None
  | None => md !! field = None
  end.
Proof.
  intros Hdec Hrd Hrms Hin.
  destruct (decode_Returns_inv _ _ _ _ _ Hdec)
    as (rd' & rms' & pis & items & Hrd' & Hrms' & _ & _ & Hf & _ & _).
  rewrite Hrd in Hrd'. injection Hrd' as <-.
  rewrite Hrms in Hrms'. injection Hrms' as <-.
  destruct (run_fields_in _ _ _ _ _ _ Hf Hin) as (o & Ho & Hmd).
  rewrite field_value_dict in Ho. rewrite lookup_empty in Hmd.
  destruct (d !! field) as [raw|].
  - destruct (is_pointer raw).
    + destruct (deref rd raw) as [v|e]; [|discriminate].
      injection Ho as <-. exists v. split; [reflexivity | exact Hmd].
    + injection Ho as <-. exact Hmd.
  - injection Ho as <-. exact Hmd.
Qed.

(** *** The point loop *)

Lemma run_points_Forall2 rd items pts0 pts :
  run_points rd items pts0 = (Returns tt, pts) ->
  exists ps, pts = (pts0 ++ ps)%list
    /\ Forall2 (fun idx p => resolve_point rd idx = Returns p) items ps.
Proof.
  revert pts0. induction items as [|idx items IH]; intros pts0 H; simpl in H.
  - injection H as <-. exists []. split; [symmetry; apply app_nil_r|].
    constructor.
  - destruct (resolve_point rd idx) as [p|e] eqn:Hp; [|discriminate].
    destruct (IH _ H) as (ps & -> & HF).
    exists (p :: ps). split.
    + rewrite <- app_assoc. reflexivity.
    + constructor; assumption.
Qed.

Lemma decoded_points py_repr data pts md nm :
  decode py_repr data = Returns (pts, md, nm) ->
  exists rd pis items,
    route_data_of data = Returns rd
    /\ point_indices_of data = Returns pis
    /\ py_iter pis = Returns items
    /\ Forall2 (fun idx p => resolve_point rd idx = Returns p) items pts.
Proof.
  intros Hdec.
  destruct (decode_Returns_inv _ _ _ _ _ Hdec)
    as (rd & rms & pis & items & Hrd & _ & Hpis & Hit & _ & Hp & _).
  exists rd, pis, items. repeat split; try assumption.
  destruct (run_points_Forall2 _ _ _ _ Hp) as (ps & -> & HF). exact HF.
Qed.

Lemma appended_nil b : appended b [] = b.
Proof. destruct b. unfold appended. simpl. rewrite app_nil_r. reflexivity. Qed.

Lemma describe_location_run md b :
  describe_location md b = after_lines (location_line md) b.
Proof.
  unfold describe_location, location_line, after_lines.
  destruct (truthy (dict_get md "geo_city"));
    [|simpl; rewrite appended_nil; reflexivity].
  unfold bind, lift.
  destruct (py_join _ _) as [location|e]; simpl; [|reflexivity].
  destruct (negb (String.eqb location EmptyString)); [reflexivity|].
  unfold ret. rewrite appended_nil. reflexivity.
Qed.

Lemma describe_distance_run md b :
  describe_distance md b = after_lines (distance_line md) b.
Proof.
  unfold describe_distance, distance_line, after_lines.
  destruct (truthy (dict_get md "distance"));
    [|simpl; rewrite appended_nil; reflexivity].
  unfold bind, lift.
  destruct (py_getitem _ _) as [distance|e]; simpl; [|reflexivity].
  destruct (py_truediv _ _) as [q|e]; simpl; reflexivity.
Qed.

Lemma describe_elevation_run md b :
  describe_elevation md b = after_lines (elevation_line md) b.
Proof.
  unfold describe_elevation, elevation_line, after_lines.
  destruct (truthy (dict_get md "elevation"));
    [|simpl; rewrite appended_nil; reflexivity].
  unfold bind, lift.
  destruct (py_getitem _ _) as [elevation|e]; simpl; [|reflexivity].
  destruct (py_truediv _ _) as [q|e]; simpl; [|reflexivity].
  destruct (py_round q) as [r|e]; simpl; reflexivity.
Qed.

Lemma add_track_points_run pts g ts acc parts :
  for_each pts (add_track_point 0)
    (Builder g ts [SegmentObj acc] parts) =
  (Returns tt,
   Builder g ts [SegmentObj (acc ++ map track_point_of pts)%list] parts).
Proof.
  revert acc. induction pts as [|p pts IH]; intros acc; simpl.
  - rewrite app_nil_r. reflexivity.
  - unfold bind at 1. unfold add_track_point at 1, update_segment, modify.
    simpl. rewrite IH. rewrite <- app_assoc. reflexivity.
Qed.

(** The document [build_gpx] returns. *)
Lemma build_run now pts nm md :
  build now pts nm md =
    try! loc := location_line md in
    try! dist := distance_line md in
    try! ele := elevation_line md in
    Returns (Gpx (VStr "Biketerra GPX Exporter") nm
                 (VStr (String.concat "; " (loc ++ dist ++ ele)%list))
                 (Some now)
                 [Track nm [Segment (map track_point_of pts)]]).
Proof.
  unfold build, build_gpx.
  unfold bind at 1, modify at 1. unfold bind at 1, modify at 1.
  unfold bind at 1, modify at 1. unfold set_gpx, set_desc_parts. simpl.
  unfold bind at 1. rewrite describe_location_run.
  destruct (location_line md) as [loc|e]; simpl; [|reflexivity].
  unfold bind at 1. rewrite describe_distance_run.
  destruct (distance_line md) as [dist|e]; simpl; [|reflexivity].
  unfold bind at 1. rewrite describe_elevation_run.
  destruct (elevation_line md) as [el|e]; simpl; [|reflexivity].
  unfold bind at 1, gets at 1. simpl.
  unfold bind at 1, modify at 1. simpl.
  unfold bind at 1, new_track at 1. simpl.
  unfold bind at 1, update_track at 1, modify at 1. simpl.
  unfold bind at 1, modify at 1. simpl.
  unfold bind at 1, new_segment at 1. simpl.
  unfold bind at 1, update_track at 1, modify at 1. simpl.
  unfold bind at 1. rewrite add_track_points_run. simpl.
  unfold gets, read_gpx. simpl. rewrite app_assoc. reflexivity.
Qed.

Lemma StructureError_ordinary e : StructureError e -> ordinary e.
Proof. intros [->|[->| ->]] c; discriminate. Qed.

Lemma rbind_Raises {A B} (r : result A) (k : A -> result B) e :
  rbind r k = Raises e ->
  r = Raises e \/ exists a, r = Returns a /\ k a = Raises e.
Proof.
  destruct r as [a|e']; simpl; intros H.
  - right. exists a. split; [reflexivity | exact H].
  - left. injection H as <-. reflexivity.
Qed.

Lemma all_str_ordinary parts e : all_str parts = Raises e -> ordinary e.
Proof.
  revert e. induction parts as [|v parts IH]; intros e; simpl.
  - discriminate.
  - destruct v; try (intros H c; injection H as <-; discriminate).
    intros H. destruct (rbind_Raises _ _ _ H) as [H1|(a & _ & H1)].
    + apply (IH _ H1).
    + discriminate.
Qed.

Lemma py_truediv_ordinary v b e : py_truediv v b = Raises e -> ordinary e.
Proof.
  unfold py_truediv. intros H c.
  destruct v; try (injection H as <-; discriminate);
    destruct (b =? 0); try (injection H as <-; discriminate);
    try destruct (float_div _ _); try discriminate;
    injection H as <-; discriminate.
Qed.

Lemma py_round_ordinary f e : py_round f = Raises e -> ordinary e.
Proof.
  intros H c. destruct f; try discriminate; injection H as <-; discriminate.
Qed.

Lemma py_getitem_ordinary obj key e :
  py_getitem obj key = Raises e -> ordinary e.
Proof.
  intros H. apply StructureError_ordinary.
  apply (structural_py_getitem obj key). exact H.
Qed.

Lemma location_line_ordinary md e : location_line md = Raises e -> ordinary e.
Proof.
  unfold location_line, py_join.
  destruct (truthy (dict_get md "geo_city")); [|discriminate].
  intros H. destruct (rbind_Raises _ _ _ H) as [H1|(a & _ & H1)];
    [|discriminate].
  destruct (rbind_Raises _ _ _ H1) as [H2|(a & _ & H2)]; [|discriminate].
  apply (all_str_ordinary _ _ H2).
Qed.

Lemma distance_line_ordinary md e : distance_line md = Raises e -> ordinary e.
Proof.
  unfold distance_line.
  destruct (truthy (dict_get md "distance")); [|discriminate].
  intros H. destruct (rbind_Raises _ _ _ H) as [H1|(a & _ & H1)].
  - apply (py_getitem_ordinary _ _ _ H1).
  - destruct (rbind_Raises _ _ _ H1) as [H2|(q & _ & H2)]; [|discriminate].
    apply (py_truediv_ordinary _ _ _ H2).
Qed.

Lemma elevation_line_ordinary md e :
  elevation_line md = Raises e -> ordinary e.
Proof.
  unfold elevation_line.
  destruct (truthy (dict_get md "elevation")); [|discriminate].
  intros H. destruct (rbind_Raises _ _ _ H) as [H1|(a & _ & H1)].
  - apply (py_getitem_ordinary _ _ _ H1).
  - destruct (rbind_Raises _ _ _ H1) as [H2|(q & _ & H2)].
    + apply (py_truediv_ordinary _ _ _ H2).
    + destruct (rbind_Raises _ _ _ H2) as [H3|(r & _ & H3)]; [|discriminate].
      apply (py_round_ordinary _ _ H3).
Qed.

Lemma build_ordinary now pts nm md e :
  build now pts nm md = Raises e -> ordinary e.
Proof.
  rewrite build_run. intros H.
  destruct (rbind_Raises _ _ _ H) as [H1|(loc & _ & H1)].
  { apply (location_line_ordinary _ _ H1). }
  destruct (rbind_Raises _ _ _ H1) as [H2|(dist & _ & H2)].
  { apply (distance_line_ordinary _ _ H2). }
  destruct (rbind_Raises _ _ _ H2) as [H3|(el & _ & H3)]; [|discriminate].
  apply (elevation_line_ordinary _ _ H3).
Qed.

(** *** The driver *)

Section Driver.

Variable py_repr : value -> string.
Variable str_exception : exception -> string.
Variable traceback : exception -> string.
Variable now : Z.
Variable fetch_route_data : string -> result value.
Variable to_xml : GPX -> result string.
Variable writable : string -> bool.
Variable encodable : string -> bool.

Local Abbreviation run :=
  (run_main py_repr str_exception traceback now fetch_route_data to_xml
            writable encodable).
Local Abbreviation ends := (exit_on str_exception traceback).

Lemma exit_on_keeps_files e w :
  w_files (snd (ends e w)) = w_files w
  /\ w_opened (snd (ends e w)) = w_opened w.
Proof. destruct e; split; reflexivity. Qed.

Lemma exit_on_status e w : ordinary e -> fst (ends e w) = 1.
Proof.
  intros He. destruct e; try reflexivity. destruct (He code). reflexivity.
Qed.

Lemma run_fetch_raises route_id output w e :
  fetch_route_data route_id = Raises e ->
  run route_id output w = ends e (fetching route_id w).
Proof.
  intros H. unfold run_main, exit_on, main, try_except.
  unfold bind at 1, print at 1, modify at 1.
  unfold bind at 1, lift at 1. rewrite H. reflexivity.
Qed.

Lemma run_decode_raises route_id output w data e :
  fetch_route_data route_id = Returns data ->
  decode py_repr data = Raises e ->
  run route_id output w = ends e (fetching route_id w).
Proof.
  intros H1 H2. unfold run_main, exit_on, main, try_except.
  unfold bind at 1, print at 1, modify at 1.
  unfold bind at 1, lift at 1. rewrite H1.
  unfold bind at 1, lift at 1. rewrite H2. reflexivity.
Qed.

Lemma run_empty_route route_id output w data md nm :
  fetch_route_data route_id = Returns data ->
  decode py_repr data = Returns ([], md, nm) ->
  run route_id output w =
    (1, World
          (w_stdout w ++ ["Fetching route " +:+ route_id +:+ "..."])%list
          (w_stderr w ++ ["Error: No track points found in route data"])%list
          (w_files w) (w_opened w)).
Proof.
  intros H1 H2. unfold run_main, main, try_except.
  unfold bind at 1, print at 1, modify at 1.
  unfold bind at 1, lift at 1. rewrite H1.
  unfold bind at 1, lift at 1. rewrite H2. reflexivity.
Qed.

Lemma run_build_raises route_id output w data p pts md nm e :
  fetch_route_data route_id = Returns data ->
  decode py_repr data = Returns (p :: pts, md, nm) ->
  build now (p :: pts) nm md = Raises e ->
  run route_id output w = ends e (fetching route_id w).
Proof.
  intros H1 H2 H3. unfold run_main, exit_on, main, try_except.
  unfold bind at 1, print at 1, modify at 1.
  unfold bind at 1, lift at 1. rewrite H1.
  unfold bind at 1, lift at 1. rewrite H2.
  cbn beta iota. unfold negb.
  unfold bind at 1, lift at 1. rewrite H3. reflexivity.
Qed.

(** C7: when the decode succeeds with no points, the run prints "Error: No
    track points found in route data" on standard error and exits with
    status 1; no file is opened or written, and nothing of the track
    builder shows in the outcome, whatever it would have done with this
    metadata. *)
Theorem empty_route_is_reported route_id output w data md nm :
  fetch_route_data route_id = Returns data ->
  decode py_repr data = Returns ([], md, nm) ->
  let '(status, w') := run route_id output w in
  status = 1
  /\ w_stderr w' =
       (w_stderr w ++ ["Error: No track points found in route data"])%list
  /\ w_stdout w' =
       (w_stdout w ++ ["Fetching route " +:+ route_id +:+ "..."])%list
  /\ w_files w' = w_files w
  /\ w_opened w' = w_opened w.
Proof.
  intros H1 H2. rewrite (run_empty_route _ output w _ _ _ H1 H2).
  repeat split; reflexivity.
Qed.

(** C10: a failed fetch, a failed decode and a failed build each end the
    run with status 1 and leave the files and the list of opened paths as
    they were; and a run that opened a file for writing had fetched,
    decoded at least one point and built the document before. *)
Theorem output_opened_last route_id output w :
  let '(status, w') := run route_id output w in
  ((exists e, fetch_route_data route_id = Raises e /\ ordinary e)
   \/ (exists data e, fetch_route_data route_id = Returns data
                      /\ decode py_repr data = Raises e)
   \/ (exists data pts md nm e,
         fetch_route_data route_id = Returns data
         /\ decode py_repr data = Returns (pts, md, nm)
         /\ build now pts nm md = Raises e) ->
   status = 1 /\ w_files w' = w_files w /\ w_opened w' = w_opened w)
  /\ (w_opened w' <> w_opened w ->
      exists data pts md nm gpx,
        fetch_route_data route_id = Returns data
        /\ decode py_repr data = Returns (pts, md, nm)
        /\ pts <> []
        /\ build now pts nm md = Returns gpx).
Proof.
  destruct (fetch_route_data route_id) as [data|e] eqn:Hfetch.
  2:{ rewrite (run_fetch_raises _ output w _ Hfetch).
      destruct (exit_on_keeps_files e (fetching route_id w)) as [Hf Ho].
      pose proof (exit_on_status e (fetching route_id w)) as Hs.
      destruct (ends e (fetching route_id w)) as [status w'].
      simpl in *. split.
      - intros [(e' & He' & Hord)
               |[(d & e' & Hd & _)|(d & ? & ? & ? & ? & Hd & _)]];
          try discriminate.
        injection He' as <-. auto.
      - intros Hne. destruct (Hne Ho). }
  destruct (decode py_repr data) as [[[pts md] nm]|e] eqn:Hdec.
  2:{ rewrite (run_decode_raises _ output w _ _ Hfetch Hdec).
      destruct (exit_on_keeps_files e (fetching route_id w)) as [Hf Ho].
      pose proof (exit_on_status e (fetching route_id w)) as Hs.
      destruct (ends e (fetching route_id w)) as [status w'].
      simpl in *. split.
      - intros _. split; [|auto].
        apply Hs, StructureError_ordinary, (structural_decode py_repr data).
        exact Hdec.
      - intros Hne. destruct (Hne Ho). }
  destruct pts as [|p pts].
  { rewrite (run_empty_route _ output w _ _ _ Hfetch Hdec). split.
    - intros _. repeat split; reflexivity.
    - intros Hne. destruct Hne. reflexivity. }
  destruct (build now (p :: pts) nm md) as [gpx|e] eqn:Hb.
  2:{ rewrite (run_build_raises _ output w _ _ _ _ _ _ Hfetch Hdec Hb).
      destruct (exit_on_keeps_files e (fetching route_id w)) as [Hf Ho].
      pose proof (exit_on_status e (fetching route_id w)) as Hs.
      destruct (ends e (fetching route_id w)) as [status w'].
      simpl in *. split.
      - intros _. split; [|auto]. apply Hs, (build_ordinary _ _ _ _ _ Hb).
      - intros Hne. destruct (Hne Ho). }
  destruct (run route_id output w) as [status w']. split.
  - intros [(e' & He' & _)
           |[(d & e' & Hd & He')|(d & ? & ? & ? & e' & Hd & Hdd & He')]].
    + discriminate.
    + injection Hd as <-. rewrite Hdec in He'. discriminate.
    + injection Hd as <-. rewrite Hdec in Hdd. injection Hdd as <- <- <-.
      rewrite Hb in He'. discriminate.
  - intros _. exists data, (p :: pts), md, nm, gpx.
    repeat split; try assumption. discriminate.
Qed.

End Driver.

(** ** The decoder's claims *)

(** C1 (as amended): for a recognized field present in the metadata
    record, an integer raw value above zero ([True] counting as 1, the
    test being [is_pointer]) is resolved once and the cell it points at
    becomes the field's value; any other raw value is not dereferenced and
    the field is left out of the output metadata, the raw value [0]
    included; an absent key is left out as well. *)
Theorem metadata_field_policy py_repr data rd d pts md nm field :
  decode py_repr data = Returns (pts, md, nm) ->
  route_data_of data = Returns rd ->
  route_meta_struct_of data = Returns (VDict d) ->
  In field fields ->
  (forall i, d !! field = Some (VInt i) -> 0 < i ->
     exists v, deref rd (VInt i) = Returns v /\ md !! field = Some v)
  /\ (forall raw, d !! field = Some raw -> is_pointer raw = true ->
        exists v, deref rd raw = Returns v /\ md !! field = Some v)
  /\ (forall raw, d !! field = Some raw -> is_pointer raw = false ->
        md !! field = None)
  /\ (d !! field = Some (VInt 0) -> md !! field = None)
  /\ (d !! field = None -> md !! field = None).
Proof.
  intros Hdec Hrd Hrms Hin.
  pose proof (decoded_field _ _ _ _ _ _ _ _ Hdec Hrd Hrms Hin) as H.
  repeat split.
  - intros i Hi Hpos. rewrite Hi in H.
    assert (is_pointer (VInt i) = true) as Hp
      by (apply is_pointer_true; left; eauto).
    rewrite Hp in H. exact H.
  - intros raw Hraw Hp. rewrite Hraw, Hp in H. exact H.
  - intros raw Hraw Hp. rewrite Hraw, Hp in H. exact H.
  - intros H0. rewrite H0 in H. exact H.
  - intros Hnone. rewrite Hnone in H. exact H.
Qed.

(** C2 (as amended): [deref] on a list store returns [store[i]] for
    [0 <= i < len(store)]; an index in [-len(store) <= i < 0] counts from
    the end and returns [store[len(store) + i]]; every other index raises
    [IndexError]. *)
Theorem deref_index (store : list value) (i : Z) :
  let n := Z.of_nat (length store) in
  (0 <= i < n ->
     exists v, store !! Z.to_nat i = Some v
       /\ deref (VList store) (VInt i) = Returns v)
  /\ (- n <= i < 0 ->
        exists v, store !! Z.to_nat (i + n) = Some v
          /\ deref (VList store) (VInt i) = Returns v)
  /\ (i < - n \/ n <= i -> deref (VList store) (VInt i) = Raises IndexError).
Proof.
  intros n. unfold deref. simpl. unfold seq_getitem. fold n.
  repeat split.
  - intros Hi.
    destruct (lookup_lt_is_Some_2 store (Z.to_nat i)) as [v Hv]; [lia|].
    exists v. split; [exact Hv|].
    destruct (Z.ltb_spec i 0); [lia|].
    destruct (Z.leb_spec 0 i); [|lia].
    destruct (Z.ltb_spec i n); [|lia].
    simpl. rewrite Hv. reflexivity.
  - intros Hi.
    destruct (lookup_lt_is_Some_2 store (Z.to_nat (i + n))) as [v Hv]; [lia|].
    exists v. split; [exact Hv|].
    destruct (Z.ltb_spec i 0); [|lia].
    destruct (Z.leb_spec 0 (i + n)); [|lia].
    destruct (Z.ltb_spec (i + n) n); [|lia].
    simpl. rewrite Hv. reflexivity.
  - intros Hi.
    destruct (Z.ltb_spec i 0).
    + destruct (Z.leb_spec 0 (i + n)); [|reflexivity].
      destruct (Z.ltb_spec (i + n) n); [|reflexivity]. lia.
    + destruct (Z.leb_spec 0 i); [|reflexivity].
      destruct (Z.ltb_spec i n); [|reflexivity]. lia.
Qed.

Lemma seq_getitem_nat {A} (l : list A) (k : nat) :
  seq_getitem l (Z.of_nat k) =
    match l !! k with
    | Some v => Returns v
    | None => Raises IndexError
    end.
Proof.
  unfold seq_getitem.
  destruct (Z.ltb_spec (Z.of_nat k) 0); [lia|].
  destruct (Z.leb_spec 0 (Z.of_nat k)); [|lia].
  rewrite Nat2Z.id.
  destruct (Z.ltb_spec (Z.of_nat k) (Z.of_nat (length l))); simpl.
  - reflexivity.
  - rewrite (lookup_ge_None_2 l k); [reflexivity | lia].
Qed.

Lemma list_getitem_nat (l : list value) (k : nat) :
  py_getitem (VList l) (VInt (Z.of_nat k)) =
    match l !! k with
    | Some v => Returns v
    | None => Raises IndexError
    end.
Proof. simpl. apply seq_getitem_nat. Qed.

Lemma resolve_point_refs rd idx refs :
  deref rd idx = Returns (VList refs) ->
  resolve_point rd idx =
    try! ref0 := match refs !! 0%nat with
                 | Some v => Returns v
                 | None => Raises IndexError
                 end in
    try! lat := deref rd ref0 in
    try! ref1 := match refs !! 1%nat with
                 | Some v => Returns v
                 | None => Raises IndexError
                 end in
    try! lng := deref rd ref1 in
    try! ref2 := match refs !! 2%nat with
                 | Some v => Returns v
                 | None => Raises IndexError
                 end in
    try! ele := deref rd ref2 in
    Returns (Point lat lng ele).
Proof.
  intros Hd. unfold resolve_point. rewrite Hd.
  rewrite <- (list_getitem_nat refs 0), <- (list_getitem_nat refs 1),
    <- (list_getitem_nat refs 2).
  reflexivity.
Qed.

Lemma resolve_point_short rd idx refs :
  deref rd idx = Returns (VList refs) ->
  (length refs < 3)%nat ->
  exists e, resolve_point rd idx = Raises e.
Proof.
  intros Hd Hlen. rewrite (resolve_point_refs _ _ _ Hd).
  destruct refs as [|r0 [|r1 [|r2 rest]]]; simpl in Hlen; try lia; simpl.
  - eexists. reflexivity.
  - destruct (deref rd r0); simpl; eexists; reflexivity.
  - destruct (deref rd r0); simpl; [|eexists; reflexivity].
    destruct (deref rd r1); simpl; eexists; reflexivity.
Qed.

Lemma resolve_point_three rd idx r0 r1 r2 rest :
  deref rd idx = Returns (VList (r0 :: r1 :: r2 :: rest)) ->
  resolve_point rd idx =
    try! lat := deref rd r0 in
    try! lng := deref rd r1 in
    try! ele := deref rd r2 in
    Returns (Point lat lng ele).
Proof. intros Hd. rewrite (resolve_point_refs _ _ _ Hd). reflexivity. Qed.

(** C3 (as amended): a point record whose reference list has fewer than 3
    elements makes the whole decode fail with a structure error; a list of
    3 or more elements is accepted, and the point is resolved from its
    first three references whatever follows them. *)
Theorem point_record_length py_repr data rd pis items idx refs :
  route_data_of data = Returns rd ->
  point_indices_of data = Returns pis ->
  py_iter pis = Returns items ->
  In idx items ->
  deref rd idx = Returns (VList refs) ->
  ((length refs < 3)%nat ->
     exists e, decode py_repr data = Raises e /\ StructureError e)
  /\ (forall r0 r1 r2 rest, refs = r0 :: r1 :: r2 :: rest ->
        resolve_point rd idx =
          try! lat := deref rd r0 in
          try! lng := deref rd r1 in
          try! ele := deref rd r2 in
          Returns (Point lat lng ele)).
Proof.
  intros Hrd Hpis Hit Hin Hd. split.
  - intros Hlen.
    destruct (decode py_repr data) as [[[pts md] nm]|e] eqn:Hdec.
    + destruct (decoded_points _ _ _ _ _ Hdec)
        as (rd' & pis' & items' & Hrd' & Hpis' & Hit' & HF).
      rewrite Hrd in Hrd'. injection Hrd' as <-.
      rewrite Hpis in Hpis'. injection Hpis' as <-.
      rewrite Hit in Hit'. injection Hit' as <-.
      apply list_elem_of_In in Hin.
      apply list_elem_of_lookup in Hin. destruct Hin as [N HN].
      destruct (Forall2_lookup_l _ _ _ _ _ HF HN) as (p & _ & Hp).
      destruct (resolve_point_short _ _ _ Hd Hlen) as [e He].
      rewrite He in Hp. discriminate.
    + exists e. split; [reflexivity|].
      apply (structural_decode py_repr data). exact Hdec.
  - intros r0 r1 r2 rest ->. apply (resolve_point_three _ _ _ _ _ rest).
    exact Hd.
Qed.

(** C4: after a successful decode the output has one point per entry of
    the point-index list, the Nth point being the Nth entry resolved
    through [resolve_point]; and the build either fails in one of the
    description lines, or returns a document with one track with one
    segment that holds one track point per decoded point, in the same
    order.  A track point carries the point's elevation and its latitude
    and longitude, each replaced by [0] when it is empty or zero
    ([latitude or 0], [longitude or 0]). *)
Theorem point_order py_repr now data pts md nm :
  decode py_repr data = Returns (pts, md, nm) ->
  (exists rd pis items,
     route_data_of data = Returns rd
     /\ point_indices_of data = Returns pis
     /\ py_iter pis = Returns items
     /\ length pts = length items
     /\ forall (N : nat) idx, items !! N = Some idx ->
          exists p, pts !! N = Some p /\ resolve_point rd idx = Returns p)
  /\ match build now pts nm md with
     | Returns gpx =>
         gpx_tracks gpx = [Track nm [Segment (map track_point_of pts)]]
     | Raises e =>
         location_line md = Raises e
         \/ distance_line md = Raises e
         \/ elevation_line md = Raises e
     end
  /\ (forall p, truthy (lat p) = true -> truthy (lng p) = true ->
        track_point_of p = TrackPoint (lat p) (lng p) (ele p)).
Proof.
  intros Hdec. split; [|split].
  - destruct (decoded_points _ _ _ _ _ Hdec)
      as (rd & pis & items & Hrd & Hpis & Hit & HF).
    exists rd, pis, items. repeat split; try assumption.
    + symmetry. apply (Forall2_length _ _ _ HF).
    + intros N idx HN.
      destruct (Forall2_lookup_l _ _ _ _ _ HF HN) as (p & Hp & Hres).
      exists p. split; assumption.
  - rewrite build_run.
    destruct (location_line md) as [loc|e]; simpl; [|auto].
    destruct (distance_line md) as [dist|e]; simpl; [|auto].
    destruct (elevation_line md) as [el|e]; simpl; [|auto].
    reflexivity.
  - intros p Hlat Hlng. unfold track_point_of, new_track_point, py_or.
    rewrite Hlat, Hlng. reflexivity.
Qed.

Lemma title_missing_falsy md :
  title_missing md -> truthy (dict_get md "title") = false.
Proof.
  unfold dict_get. intros [H|(t & H & Ht)]; rewrite H; simpl; auto.
Qed.

(** C5: the name a decode returns is derived from its metadata: the title
    when there is a non-empty one; otherwise "Route " followed by the id
    when there is one, and "Route Unknown" when there is neither. *)
Theorem route_name_derivation py_repr :
  (forall data pts md nm,
     decode py_repr data = Returns (pts, md, nm) ->
     nm = route_name_of py_repr md)
  /\ (forall md t, md !! "title" = Some t -> truthy t = true ->
        route_name_of py_repr md = t)
  /\ (forall md i, title_missing md -> md !! "id" = Some i ->
        route_name_of py_repr md = VStr ("Route " +:+ py_str py_repr i))
  /\ (forall md, title_missing md -> md !! "id" = None ->
        route_name_of py_repr md = VStr "Route Unknown")
  /\ route_name_of py_repr {[ "title" := VStr "Sunset Loop" ]}
     = VStr "Sunset Loop"
  /\ route_name_of py_repr {[ "id" := VInt 8771 ]} = VStr "Route 8771"
  /\ route_name_of py_repr ∅ = VStr "Route Unknown".
Proof.
  repeat split.
  - intros data pts md nm Hdec.
    destruct (decode_Returns_inv _ _ _ _ _ Hdec)
      as (rd & rms & pis & items & _ & _ & _ & _ & _ & _ & Hnm).
    exact Hnm.
  - intros md t Ht Htr. unfold route_name_of, dict_get.
    rewrite Ht. simpl. rewrite Htr. reflexivity.
  - intros md i Hmiss Hid. unfold route_name_of.
    rewrite (title_missing_falsy _ Hmiss), Hid. reflexivity.
  - intros md Hmiss Hid. unfold route_name_of.
    rewrite (title_missing_falsy _ Hmiss), Hid. reflexivity.
Qed.

Lemma all_str_filter parts ss :
  all_str (List.filter truthy parts) = Returns ss ->
  ss = nonempty_texts parts.
Proof.
  revert ss. induction parts as [|v parts IH]; intros ss H.
  - simpl in H. injection H as <-. reflexivity.
  - simpl in H. unfold nonempty_texts. simpl.
    destruct (truthy v) eqn:Hv.
    + destruct v; simpl in H; try discriminate.
      rbind_inv H. injection H as <-.
      simpl in Hv. destruct (String.eqb s EmptyString) eqn:Hs; [discriminate|].
      simpl. rewrite Hs. f_equal. apply IH. exact Hx.
    + assert (nonempty_text v = None) as ->.
      { destruct v; try reflexivity. simpl in *.
        destruct (String.eqb s EmptyString); [reflexivity | discriminate]. }
      apply IH. exact H.
Qed.

Lemma concat_head_nonempty sep s ss :
  String.eqb s EmptyString = false ->
  String.eqb (String.concat sep (s :: ss)) EmptyString = false.
Proof.
  intros Hs. destruct s as [|c s]; [discriminate|].
  destruct ss; reflexivity.
Qed.

Lemma location_line_Returns md loc :
  location_line md = Returns loc ->
  loc =
    if truthy (dict_get md "geo_city") then
      ["Location: " +:+
       String.concat ", " (nonempty_texts [dict_get md "geo_city";
                                           dict_get md "geo_state";
                                           dict_get md "geo_country"])]
    else [].
Proof.
  unfold location_line, py_join.
  destruct (truthy (dict_get md "geo_city")) eqn:Hc.
  - intros H. rbind_inv H. rbind_inv Hx. injection Hx as <-.
    injection H as <-.
    rewrite <- (all_str_filter _ _ Hx0).
    simpl in Hx0. rewrite Hc in Hx0.
    destruct (dict_get md "geo_city"); simpl in Hx0; try discriminate.
    rbind_inv Hx0. injection Hx0 as <-.
    simpl in Hc. apply negb_true_iff in Hc.
    unfold truthy. rewrite (concat_head_nonempty _ _ _ Hc). reflexivity.
  - intros H. injection H as <-. reflexivity.
Qed.

Lemma dict_getitem md key v :
  py_getitem (VDict md) (VStr key) = Returns v -> dict_get md key = v.
Proof.
  simpl. unfold dict_get. destruct (md !! key); [|discriminate].
  intros H. injection H as <-. reflexivity.
Qed.

(** C6: the description of a built document is its location, distance and
    elevation lines, in this order, joined by "; ".  The location line is
    "Location: " and the non-empty ones of city, state and country joined
    by ", ", and is there when the city is non-empty; the distance line is
    "Distance: " with the distance over 100000 in two decimals and " km";
    the elevation line is "Elevation gain: " with the elevation over 100
    rounded to an integer and " m".  A line whose metadata is absent is
    left out.  Distance 250000 reads "2.50" and elevation 12345 reads
    "123". *)
Theorem description_layout :
  (forall now pts nm md gpx,
     build now pts nm md = Returns gpx ->
     exists loc dist ele,
       gpx_description gpx
         = VStr (String.concat "; " (loc ++ dist ++ ele)%list)
       /\ loc =
            (if truthy (dict_get md "geo_city") then
               ["Location: " +:+
                String.concat ", "
                  (nonempty_texts [dict_get md "geo_city";
                                   dict_get md "geo_state";
                                   dict_get md "geo_country"])]
             else [])
       /\ (if truthy (dict_get md "distance") then
             exists q, py_truediv (dict_get md "distance") 100000 = Returns q
               /\ dist = ["Distance: " +:+ format_f 2 q +:+ " km"]
           else dist = [])
       /\ (if truthy (dict_get md "elevation") then
             exists q r, py_truediv (dict_get md "elevation") 100 = Returns q
               /\ py_round q = Returns r
               /\ ele = ["Elevation gain: " +:+ str_int r +:+ " m"]
           else ele = [])
       /\ (md !! "geo_city" = None -> loc = [])
       /\ (md !! "distance" = None -> dist = [])
       /\ (md !! "elevation" = None -> ele = []))
  /\ (exists q, py_truediv (VInt 250000) 100000 = Returns q
        /\ format_f 2 q = "2.50")
  /\ (exists q r, py_truediv (VInt 12345) 100 = Returns q
        /\ py_round q = Returns r /\ str_int r = "123").
Proof.
  split; [|split].
  - intros now pts nm md gpx Hb. rewrite build_run in Hb.
    rbind_inv Hb. rename x into loc, Hx into Hloc.
    rbind_inv Hb. rename x into dist, Hx into Hdist.
    rbind_inv Hb. rename x into el, Hx into Hele.
    injection Hb as <-. exists loc, dist, el. simpl.
    pose proof (location_line_Returns _ _ Hloc) as Hl.
    assert (if truthy (dict_get md "distance") then
              exists q, py_truediv (dict_get md "distance") 100000 = Returns q
                /\ dist = ["Distance: " +:+ format_f 2 q +:+ " km"]
            else dist = []) as Hd.
    { unfold distance_line in Hdist.
      destruct (truthy (dict_get md "distance")).
      - rbind_inv Hdist. rbind_inv Hdist. injection Hdist as <-.
        rewrite (dict_getitem _ _ _ Hx). eauto.
      - injection Hdist as <-. reflexivity. }
    assert (if truthy (dict_get md "elevation") then
              exists q r, py_truediv (dict_get md "elevation") 100 = Returns q
                /\ py_round q = Returns r
                /\ el = ["Elevation gain: " +:+ str_int r +:+ " m"]
            else el = []) as He.
    { unfold elevation_line in Hele.
      destruct (truthy (dict_get md "elevation")).
      - rbind_inv Hele. rbind_inv Hele. rbind_inv Hele.
        injection Hele as <-.
        rewrite (dict_getitem _ _ _ Hx). eauto.
      - injection Hele as <-. reflexivity. }
    split; [reflexivity|]. split; [exact Hl|].
    split; [exact Hd|]. split; [exact He|].
    unfold dict_get in *. repeat split.
    + intros Hn. rewrite Hn in Hl. exact Hl.
    + intros Hn. rewrite Hn in Hd. exact Hd.
    + intros Hn. rewrite Hn in He. exact He.
  - eexists. split; vm_compute; reflexivity.
  - eexists _, _. repeat split; vm_compute; reflexivity.
Qed.

(** C8: the decoder's result is a function of the store alone, it leaves
    the store as it found it, and decoding again on what it left behind
    gives the same points, metadata and name (or the same error). *)
Theorem decode_is_pure py_repr fr :
  let first := extract_route_info py_repr fr in
  let second := extract_route_info py_repr (snd first) in
  fst first = decode py_repr (fr_data fr)
  /\ fst second = fst first
  /\ fr_data (snd first) = fr_data fr
  /\ fr_data (snd second) = fr_data fr.
Proof.
  intros first second. subst first second.
  destruct (extract_route_info_run py_repr fr) as (fr1 & E1 & D1).
  rewrite E1. simpl.
  destruct (extract_route_info_run py_repr fr1) as (fr2 & E2 & D2).
  rewrite E2. simpl. rewrite decode_run, D1.
  repeat split; congruence.
Qed.

(** C9: in the metadata loop a raw [True] counts as a pointer and the
    field takes the cell at store index 1; a raw [False] is not
    dereferenced and the field is absent from the output metadata. *)
Theorem boolean_raw_values py_repr data store d pts md nm field :
  decode py_repr data = Returns (pts, md, nm) ->
  route_data_of data = Returns (VList store) ->
  route_meta_struct_of data = Returns (VDict d) ->
  In field fields ->
  (d !! field = Some (VBool true) ->
     exists v, store !! 1%nat = Some v /\ md !! field = Some v)
  /\ (d !! field = Some (VBool false) -> md !! field = None).
Proof.
  intros Hdec Hrd Hrms Hin.
  pose proof (decoded_field _ _ _ _ _ _ _ _ Hdec Hrd Hrms Hin) as H.
  split; intros Hraw; rewrite Hraw in H; simpl in H.
  - destruct H as (v & Hv & Hmd). exists v. split; [|exact Hmd].
    unfold deref in Hv. simpl in Hv.
    change 1 with (Z.of_nat 1) in Hv. rewrite seq_getitem_nat in Hv.
    destruct (store !! 1%nat); [|discriminate].
    injection Hv as <-. reflexivity.
  - exact H.
Qed.

(** ** The claims at the example stores *)

Example sample_decodes :
  decode plain_repr (route_document sample_store)
  = Returns (sample_points, sample_metadata, VStr "Sunset Loop").
Proof. vm_compute. reflexivity. Qed.

Example literal_decodes :
  decode plain_repr (route_document literal_store)
  = Returns ([], literal_metadata, VStr "Sunset Loop").
Proof. vm_compute. reflexivity. Qed.

(** C1, as first stated, fails: a field whose raw value is the literal
    [0] does not reach the output metadata. *)
Lemma literal_zero_is_omitted :
  route_meta_struct_of (route_document literal_store)
    = Returns (VDict literal_record)
  /\ literal_record !! "id" = Some (VInt 0)
  /\ exists pts md nm,
       decode plain_repr (route_document literal_store)
         = Returns (pts, md, nm)
       /\ md !! "id" = None
       /\ md !! "id" <> Some (VInt 0).
Proof.
  split; [reflexivity|]. split; [reflexivity|].
  exists [], literal_metadata, (VStr "Sunset Loop").
  split; [vm_compute; reflexivity|].
  split; [reflexivity | discriminate].
Qed.

Lemma metadata_field_policy_witness :
  exists v, deref (VList literal_store) (VInt 3) = Returns v
    /\ literal_metadata !! "title" = Some v.
Proof.
  apply (proj1 (metadata_field_policy plain_repr
                  (route_document literal_store) (VList literal_store)
                  literal_record [] literal_metadata (VStr "Sunset Loop")
                  "title"
                  ltac:(vm_compute; reflexivity)
                  ltac:(reflexivity)
                  ltac:(reflexivity)
                  ltac:(simpl; tauto)) 3).
  - reflexivity.
  - lia.
Defined.

(** C2, as first stated, fails: index [-1] lies outside [0 <= i < 3] and
    yet returns the last cell. *)
Lemma negative_index_wraps :
  ~ (0 <= -1 < Z.of_nat (length [VInt 10; VInt 20; VInt 30]))
  /\ deref (VList [VInt 10; VInt 20; VInt 30]) (VInt (-1))
     = Returns (VInt 30).
Proof. split; [simpl; lia | reflexivity]. Qed.

Lemma deref_index_witness :
  exists v, [VInt 10; VInt 20; VInt 30] !! Z.to_nat 1 = Some v
    /\ deref (VList [VInt 10; VInt 20; VInt 30]) (VInt 1) = Returns v.
Proof.
  apply (proj1 (deref_index [VInt 10; VInt 20; VInt 30] 1)).
  simpl. lia.
Defined.

(** C3, as first stated, fails: a reference list of four elements is
    decoded, from its first three. *)
Lemma long_reference_list_accepted :
  deref (VList long_refs_store) (VInt 3)
    = Returns (VList [VInt 4; VInt 5; VInt 6; VInt 7])
  /\ decode plain_repr (route_document long_refs_store)
     = Returns ([Point (VInt 40) (VInt (-105)) (VInt 1600)], ∅,
                VStr "Route Unknown").
Proof. split; vm_compute; reflexivity. Qed.

Lemma point_record_length_witness :
  exists e, decode plain_repr (route_document short_refs_store) = Raises e
    /\ StructureError e.
Proof.
  apply (proj1 (point_record_length plain_repr
                  (route_document short_refs_store) (VList short_refs_store)
                  (VList [VInt 3]) [VInt 3] (VInt 3) [VInt 4; VInt 5]
                  ltac:(reflexivity) ltac:(reflexivity) ltac:(reflexivity)
                  ltac:(simpl; tauto) ltac:(reflexivity))).
  simpl. lia.
Defined.

Lemma point_order_witness :
  (exists rd pis items,
     route_data_of (route_document sample_store) = Returns rd
     /\ point_indices_of (route_document sample_store) = Returns pis
     /\ py_iter pis = Returns items
     /\ length sample_points = length items
     /\ forall (N : nat) idx, items !! N = Some idx ->
          exists p, sample_points !! N = Some p
            /\ resolve_point rd idx = Returns p)
  /\ gpx_tracks sample_gpx =
       [Track (VStr "Sunset Loop")
          [Segment (map track_point_of sample_points)]].
Proof.
  destruct (point_order plain_repr 0 (route_document sample_store)
              sample_points sample_metadata (VStr "Sunset Loop")
              ltac:(vm_compute; reflexivity)) as (Hpoints & Htrack & _).
  split; [exact Hpoints|].
  assert (build 0 sample_points (VStr "Sunset Loop") sample_metadata
          = Returns sample_gpx) as Hb by (vm_compute; reflexivity).
  rewrite Hb in Htrack. exact Htrack.
Defined.

Lemma route_name_derivation_witness :
  VStr "Sunset Loop" = route_name_of plain_repr sample_metadata.
Proof.
  apply (proj1 (route_name_derivation plain_repr)
           (route_document sample_store) sample_points).
  vm_compute. reflexivity.
Defined.

Example sample_builds :
  build 0 sample_points (VStr "Sunset Loop") sample_metadata
  = Returns sample_gpx.
Proof. vm_compute. reflexivity. Qed.

Lemma description_layout_witness :
  exists loc dist ele,
    gpx_description sample_gpx
      = VStr (String.concat "; " (loc ++ dist ++ ele)%list)
    /\ loc =
         (if truthy (dict_get sample_metadata "geo_city") then
            ["Location: " +:+
             String.concat ", "
               (nonempty_texts [dict_get sample_metadata "geo_city";
                                dict_get sample_metadata "geo_state";
                                dict_get sample_metadata "geo_country"])]
          else [])
    /\ (if truthy (dict_get sample_metadata "distance") then
          exists q,
            py_truediv (dict_get sample_metadata "distance") 100000
              = Returns q
            /\ dist = ["Distance: " +:+ format_f 2 q +:+ " km"]
        else dist = [])
    /\ (if truthy (dict_get sample_metadata "elevation") then
          exists q r,
            py_truediv (dict_get sample_metadata "elevation") 100 = Returns q
            /\ py_round q = Returns r
            /\ ele = ["Elevation gain: " +:+ str_int r +:+ " m"]
        else ele = [])
    /\ (sample_metadata !! "geo_city" = None -> loc = [])
    /\ (sample_metadata !! "distance" = None -> dist = [])
    /\ (sample_metadata !! "elevation" = None -> ele = []).
Proof.
  apply (proj1 description_layout 0 sample_points (VStr "Sunset Loop")).
  vm_compute. reflexivity.
Defined.

Lemma empty_route_is_reported_witness :
  let '(status, w') :=
    run_main plain_repr plain_text plain_text 0
      (fun _ => Returns (route_document empty_route_store))
      sample_xml any_path any_text "8771" None empty_world in
  status = 1
  /\ w_stderr w' =
       (w_stderr empty_world
        ++ ["Error: No track points found in route data"])%list
  /\ w_stdout w' =
       (w_stdout empty_world ++ ["Fetching route " +:+ "8771" +:+ "..."])%list
  /\ w_files w' = w_files empty_world
  /\ w_opened w' = w_opened empty_world.
Proof.
  apply (empty_route_is_reported plain_repr plain_text plain_text 0
           (fun _ => Returns (route_document empty_route_store))
           sample_xml any_path any_text "8771" None empty_world
           (route_document empty_route_store)
           {[ "distance" := VStr "far" ]} (VStr "Route Unknown")).
  - reflexivity.
  - vm_compute. reflexivity.
Defined.

Lemma boolean_raw_values_witness :
  (bool_record !! "id" = Some (VBool true) ->
     exists v, bool_store !! 1%nat = Some v /\ bool_metadata !! "id" = Some v)
  /\ (bool_record !! "id" = Some (VBool false) ->
        bool_metadata !! "id" = None).
Proof.
  apply (boolean_raw_values plain_repr (route_document bool_store) bool_store
           bool_record [] bool_metadata
           (VStr ("Route " +:+ plain_repr (VDict bool_record))) "id").
  - vm_compute. reflexivity.
  - reflexivity.
  - reflexivity.
  - simpl. tauto.
Defined.

Lemma output_opened_last_witness :
  let '(status, w') :=
    run_main plain_repr plain_text plain_text 0
      (fun _ => Returns (route_document short_refs_store))
      sample_xml any_path any_text "8771" None empty_world in
  status = 1
  /\ w_files w' = w_files empty_world
  /\ w_opened w' = w_opened empty_world.
Proof.
  pose proof (output_opened_last plain_repr plain_text plain_text 0
                (fun _ => Returns (route_document short_refs_store))
                sample_xml any_path any_text "8771" None empty_world) as H.
  destruct (run_main _ _ _ _ _ _ _ _ _ _ _) as [status w'].
  apply (proj1 H). right. left.
  exists (route_document short_refs_store), IndexError.
  split; [reflexivity | vm_compute; reflexivity].
Defined.

(** * Further properties of the code *)

(** ** The decoder *)

Lemma seq_getitem_In {A} (l : list A) i v :
  seq_getitem l i = Returns v -> In v l.
Proof.
  unfold seq_getitem. destruct (_ && _); [|discriminate].
  destruct (l !! _) as [x|] eqn:Hx; [|discriminate].
  intros H. injection H as <-.
  apply list_elem_of_In, list_elem_of_lookup. eauto.
Qed.

Lemma seq_getitem_positive {A} (l : list A) i v :
  0 < i -> seq_getitem l i = Returns v ->
  l !! Z.to_nat i = Some v /\ (0 < Z.to_nat i)%nat.
Proof.
  intros Hi. unfold seq_getitem.
  destruct (Z.ltb_spec i 0) as [Hneg|_]; [lia|].
  destruct (_ && _); [|discriminate].
  destruct (l !! _) as [x|] eqn:Hx; [|discriminate].
  intros Hv. injection Hv as <-. split; [reflexivity | lia].
Qed.

Lemma seq_getitem_beyond {A} (l : list A) i :
  Z.of_nat (length l) <= i -> seq_getitem l i = Raises IndexError.
Proof.
  intros Hi. unfold seq_getitem.
  destruct (Z.ltb_spec i 0); [lia|].
  destruct (Z.leb_spec 0 i); [|reflexivity].
  destruct (Z.ltb_spec i (Z.of_nat (length l))); [lia | reflexivity].
Qed.

Lemma list_getitem_In store key v :
  py_getitem (VList store) key = Returns v -> In v store.
Proof.
  simpl. destruct (isinstance_int key); [|discriminate].
  apply seq_getitem_In.
Qed.

Lemma chars_are_strings s v : In v (chars s) -> exists c, v = VStr c.
Proof.
  unfold chars. intros H. apply in_map_iff in H.
  destruct H as (c & <- & _). eauto.
Qed.

(** A store whose first cell is a record with a ["route"] key is a list. *)
Lemma store_is_list rd ri v :
  py_getitem rd (VInt 0) = Returns ri ->
  py_getitem ri (VStr "route") = Returns v ->
  exists store, rd = VList store.
Proof.
  intros Hri Hv. destruct rd; try discriminate.
  - simpl in Hri. apply seq_getitem_In, chars_are_strings in Hri.
    destruct Hri as [c ->]. discriminate.
  - eauto.
Qed.

Lemma decoded_store_is_list py_repr data pts md nm :
  decode py_repr data = Returns (pts, md, nm) ->
  exists store, route_data_of data = Returns (VList store).
Proof.
  intros Hdec.
  destruct (decode_Returns_inv _ _ _ _ _ Hdec)
    as (rd & rms & pis & items & Hrd & Hrms & _).
  unfold route_meta_struct_of, route_info_of in Hrms.
  rewrite Hrd in Hrms. simpl in Hrms.
  rbind_inv Hrms. rbind_inv Hrms.
  destruct (store_is_list _ _ _ Hx Hx0) as [store ->]. eauto.
Qed.

Lemma field_value_Some rd rms f v :
  field_value rd rms f = Returns (Some v) ->
  exists idx, py_getitem rms (VStr f) = Returns idx
    /\ is_pointer idx = true /\ deref rd idx = Returns v.
Proof.
  unfold field_value. intros H. rbind_inv H.
  destruct x; [|discriminate].
  rbind_inv H. rename x into idx.
  destruct (is_pointer idx) eqn:Hp; [|discriminate].
  rbind_inv H. injection H as <-. eauto.
Qed.

Lemma decoded_metadata_entry py_repr data pts md nm key v :
  decode py_repr data = Returns (pts, md, nm) ->
  md !! key = Some v ->
  In key fields
  /\ exists rd rms idx,
       route_data_of data = Returns rd
       /\ route_meta_struct_of data = Returns rms
       /\ py_getitem rms (VStr key) = Returns idx
       /\ is_pointer idx = true
       /\ deref rd idx = Returns v.
Proof.
  intros Hdec Hk.
  destruct (decode_Returns_inv _ _ _ _ _ Hdec)
    as (rd & rms & pis & items & Hrd & Hrms & _ & _ & Hf & _).
  destruct (in_dec string_dec key fields) as [Hin|Hout].
  - split; [exact Hin|].
    destruct (run_fields_in _ _ _ _ _ _ Hf Hin) as (o & Ho & Hmd).
    rewrite Hk, lookup_empty in Hmd. destruct o as [w|]; [|discriminate].
    injection Hmd as ->.
    destruct (field_value_Some _ _ _ _ Ho) as (idx & H1 & H2 & H3).
    exists rd, rms, idx. repeat split; assumption.
  - rewrite (run_fields_notin _ _ _ _ _ _ Hf Hout), lookup_empty in Hk.
    discriminate.
Qed.

(** X1: the output metadata holds recognized fields only, and each of them
    with the cell its raw value in the metadata record points at: a key of
    the record that is not one of the eight fields, or whose raw value is
    not a positive integer, never shows in the output. *)
Theorem metadata_keys_recognized py_repr data rd d pts md nm key v :
  decode py_repr data = Returns (pts, md, nm) ->
  route_data_of data = Returns rd ->
  route_meta_struct_of data = Returns (VDict d) ->
  md !! key = Some v ->
  In key fields
  /\ exists raw, d !! key = Some raw
       /\ is_pointer raw = true
       /\ deref rd raw = Returns v.
Proof.
  intros Hdec Hrd Hrms Hk.
  destruct (decoded_metadata_entry _ _ _ _ _ _ _ Hdec Hk)
    as (Hin & rd' & rms' & idx & Hrd' & Hrms' & Hidx & Hp & Hv).
  rewrite Hrd in Hrd'. injection Hrd' as <-.
  rewrite Hrms in Hrms'. injection Hrms' as <-.
  split; [exact Hin|]. exists idx. repeat split; try assumption.
  simpl in Hidx. destruct (d !! key); [|discriminate].
  injection Hidx as ->. reflexivity.
Qed.

(** X2: every value of the output metadata is a cell of the store at a
    position above zero; the route record at position 0 is never taken
    through a metadata pointer. *)
Theorem metadata_values_from_store py_repr data pts md nm :
  decode py_repr data = Returns (pts, md, nm) ->
  exists store,
    route_data_of data = Returns (VList store)
    /\ forall key v, md !! key = Some v ->
         exists i : nat, (0 < i)%nat /\ store !! i = Some v.
Proof.
  intros Hdec.
  destruct (decoded_store_is_list _ _ _ _ _ Hdec) as [store Hst].
  exists store. split; [exact Hst|]. intros key v Hk.
  destruct (decoded_metadata_entry _ _ _ _ _ _ _ Hdec Hk)
    as (_ & rd & rms & idx & Hrd & _ & _ & Hp & Hv).
  rewrite Hst in Hrd. injection Hrd as <-.
  apply is_pointer_true in Hp. unfold deref in Hv. simpl in Hv.
  assert (isinstance_int idx = true /\ 0 < int_val idx) as [Hi Hpos].
  { destruct Hp as [(i & -> & Hi)| ->]; simpl; split; auto; lia. }
  rewrite Hi in Hv.
  destruct (seq_getitem_positive _ _ _ Hpos Hv) as [Hl Hn].
  exists (Z.to_nat (int_val idx)). split; assumption.
Qed.

Lemma resolve_point_from_store store idx p :
  resolve_point (VList store) idx = Returns p ->
  In (lat p) store /\ In (lng p) store /\ In (ele p) store.
Proof.
  unfold resolve_point, deref. intros H.
  rbind_inv H. rbind_inv H. rbind_inv H. rbind_inv H. rbind_inv H.
  rbind_inv H. rbind_inv H. injection H as <-. simpl.
  repeat split; eapply list_getitem_In; eassumption.
Qed.

(** X3: every coordinate of every decoded point is a cell of the store:
    the decoder copies values, it computes none. *)
Theorem point_values_from_store py_repr data pts md nm :
  decode py_repr data = Returns (pts, md, nm) ->
  exists store,
    route_data_of data = Returns (VList store)
    /\ forall p, In p pts ->
         In (lat p) store /\ In (lng p) store /\ In (ele p) store.
Proof.
  intros Hdec.
  destruct (decoded_store_is_list _ _ _ _ _ Hdec) as [store Hst].
  exists store. split; [exact Hst|]. intros p Hp.
  destruct (decoded_points _ _ _ _ _ Hdec)
    as (rd & pis & items & Hrd & _ & _ & HF).
  rewrite Hst in Hrd. injection Hrd as <-.
  apply list_elem_of_In, list_elem_of_lookup in Hp. destruct Hp as [N HN].
  destruct (Forall2_lookup_r _ _ _ _ _ HF HN) as (idx & _ & Hres).
  apply (resolve_point_from_store _ _ _ Hres).
Qed.

(** X4: a recognized field whose raw value points beyond the end of the
    store makes the whole decode fail with a structure error; the field is
    not skipped. *)
Theorem dangling_metadata_pointer_aborts py_repr data store d field i :
  route_data_of data = Returns (VList store) ->
  route_meta_struct_of data = Returns (VDict d) ->
  In field fields ->
  d !! field = Some (VInt i) ->
  0 < i ->
  Z.of_nat (length store) <= i ->
  exists e, decode py_repr data = Raises e /\ StructureError e.
Proof.
  intros Hrd Hrms Hin Hraw Hpos Hlen.
  destruct (decode py_repr data) as [[[pts md] nm]|e] eqn:Hdec.
  - pose proof (decoded_field _ _ _ _ _ _ _ _ Hdec Hrd Hrms Hin) as H.
    rewrite Hraw in H.
    assert (is_pointer (VInt i) = true) as Hp
      by (apply is_pointer_true; left; eauto).
    rewrite Hp in H. destruct H as (v & Hv & _).
    unfold deref in Hv. simpl in Hv.
    rewrite (seq_getitem_beyond _ _ Hlen) in Hv. discriminate.
  - exists e. split; [reflexivity|].
    apply (structural_decode py_repr data). exact Hdec.
Qed.

(** X5: a document of the wrong shape is refused at the first step that
    does not fit: anything but a dictionary is a [TypeError], a dictionary
    without ["nodes"] a [KeyError], and a node list with fewer than three
    nodes an [IndexError]. *)
Theorem document_shape_errors py_repr :
  (forall data, (forall d, data <> VDict d) ->
     decode py_repr data = Raises TypeError)
  /\ (forall d, d !! "nodes" = None ->
        decode py_repr (VDict d) = Raises KeyError)
  /\ (forall d nodes, d !! "nodes" = Some (VList nodes) ->
        (length nodes <= 2)%nat ->
        decode py_repr (VDict d) = Raises IndexError).
Proof.
  repeat split.
  - intros data Hd. rewrite decode_run. unfold decode_fun, route_data_of.
    destruct data; try reflexivity. destruct (Hd d). reflexivity.
  - intros d Hd. rewrite decode_run. unfold decode_fun, route_data_of.
    simpl. rewrite Hd. reflexivity.
  - intros d nodes Hd Hlen. rewrite decode_run.
    unfold decode_fun, route_data_of. simpl. rewrite Hd. simpl.
    rewrite (seq_getitem_beyond nodes 2); [reflexivity | lia].
Qed.

(** X6: the name a decode returns is never empty: it is a non-empty title
    or a string that starts with "Route ". *)
Theorem route_name_never_empty py_repr data pts md nm :
  decode py_repr data = Returns (pts, md, nm) ->
  truthy nm = true
  /\ (nm = dict_get md "title" \/ exists rest, nm = VStr ("Route " +:+ rest)).
Proof.
  intros Hdec.
  destruct (decode_Returns_inv _ _ _ _ _ Hdec)
    as (rd & rms & pis & items & _ & _ & _ & _ & _ & _ & ->).
  unfold route_name_of.
  destruct (truthy (dict_get md "title")) eqn:Ht.
  - split; [exact Ht | left; reflexivity].
  - split; [reflexivity | right; eauto].
Qed.

(** X23: the route record's ["latLngData"] key is looked up before its
    ["route"] pointer is followed, and the metadata record is searched
    before the point list is resolved.  So when the ["route"] pointer
    leads to a cell that is [None], a boolean or a number instead of a
    metadata record, the decode fails with a [TypeError] if the route
    record has a ["latLngData"] key, wherever that key points, and with a
    [KeyError] if it has none. *)
Theorem scalar_metadata_record_aborts py_repr data r rms :
  route_info_of data = Returns (VDict r) ->
  route_meta_struct_of data = Returns rms ->
  match rms with
  | VNone | VBool _ | VInt _ | VFloat _ => True
  | _ => False
  end ->
  (is_Some (r !! "latLngData") -> decode py_repr data = Raises TypeError)
  /\ (r !! "latLngData" = None -> decode py_repr data = Raises KeyError).
Proof.
  intros Hri Hrms Hscalar.
  rewrite decode_run. unfold decode_fun.
  unfold route_meta_struct_of, route_info_of in *.
  destruct (route_data_of data) as [rd|e]; [|discriminate].
  cbn [rbind] in *. rewrite Hri in *. cbn [rbind] in *.
  simpl py_getitem in *.
  split.
  - intros [lli Hl]. rewrite Hl. cbn [rbind].
    destruct (r !! "route") as [rmi|]; [|discriminate]. cbn [rbind] in *.
    rewrite Hrms. cbn [rbind].
    destruct rms; try destruct Hscalar; reflexivity.
  - intros Hl. rewrite Hl. reflexivity.
Qed.

(** ** The track builder *)

Lemma all_str_TypeError parts e : all_str parts = Raises e -> e = TypeError.
Proof.
  revert e. induction parts as [|v parts IH]; intros e; simpl.
  - discriminate.
  - destruct v; try (intros H; injection H as <-; reflexivity).
    intros H. destruct (rbind_Raises _ _ _ H) as [H1|(a & _ & H1)].
    + apply (IH _ H1).
    + discriminate.
Qed.

Lemma location_line_TypeError md e :
  location_line md = Raises e -> e = TypeError.
Proof.
  unfold location_line, py_join.
  destruct (truthy (dict_get md "geo_city")); [|discriminate].
  intros H. destruct (rbind_Raises _ _ _ H) as [H1|(a & _ & H1)];
    [|discriminate].
  destruct (rbind_Raises _ _ _ H1) as [H2|(a & _ & H2)]; [|discriminate].
  apply (all_str_TypeError _ _ H2).
Qed.

(** [metadata[key]] after [metadata.get(key)] was found truthy. *)
Lemma truthy_getitem md key :
  truthy (dict_get md key) = true ->
  py_getitem (VDict md) (VStr key) = Returns (dict_get md key).
Proof.
  unfold dict_get. simpl. destruct (md !! key); [reflexivity | discriminate].
Qed.

Lemma py_truediv_kinds v b e :
  b <> 0 -> py_truediv v b = Raises e -> e = TypeError \/ e = OverflowError.
Proof.
  intros Hb. apply Z.eqb_neq in Hb. unfold py_truediv. rewrite Hb.
  destruct v; try (intros H; injection H as <-; auto);
    try destruct (float_div _ _); try discriminate;
    intros H; injection H as <-; auto.
Qed.

Lemma py_round_kinds f e :
  py_round f = Raises e -> e = OverflowError \/ e = ValueError.
Proof.
  destruct f; try discriminate; intros H; injection H as <-; auto.
Qed.

Lemma distance_line_kinds md e :
  distance_line md = Raises e -> e = TypeError \/ e = OverflowError.
Proof.
  unfold distance_line.
  destruct (truthy (dict_get md "distance")) eqn:Ht; [|discriminate].
  rewrite (truthy_getitem _ _ Ht). simpl.
  intros H. destruct (rbind_Raises _ _ _ H) as [H1|(q & _ & H1)];
    [|discriminate].
  apply (py_truediv_kinds _ 100000 _ ltac:(lia) H1).
Qed.

Lemma elevation_line_kinds md e :
  elevation_line md = Raises e ->
  e = TypeError \/ e = OverflowError \/ e = ValueError.
Proof.
  unfold elevation_line.
  destruct (truthy (dict_get md "elevation")) eqn:Ht; [|discriminate].
  rewrite (truthy_getitem _ _ Ht). simpl.
  intros H. destruct (rbind_Raises _ _ _ H) as [H1|(q & _ & H1)].
  - destruct (py_truediv_kinds _ 100 _ ltac:(lia) H1); auto.
  - destruct (rbind_Raises _ _ _ H1) as [H2|(r & _ & H2)]; [|discriminate].
    destruct (py_round_kinds _ _ H2); auto.
Qed.

Lemma build_raises_in_a_line now pts nm md e :
  build now pts nm md = Raises e ->
  location_line md = Raises e
  \/ distance_line md = Raises e
  \/ elevation_line md = Raises e.
Proof.
  rewrite build_run. intros H.
  destruct (rbind_Raises _ _ _ H) as [H1|(loc & _ & H1)]; [auto|].
  destruct (rbind_Raises _ _ _ H1) as [H2|(dist & _ & H2)]; [auto|].
  destruct (rbind_Raises _ _ _ H2) as [H3|(el & _ & H3)]; [auto|].
  discriminate.
Qed.

(** X7: [build_gpx] fails in three ways only: with a [TypeError] (a city,
    state or country that is not a string, a distance or elevation that is
    not a number), an [OverflowError] (a quotient or a rounding out of
    range) or a [ValueError] (rounding a NaN). *)
Theorem build_failure_kinds now pts nm md e :
  build now pts nm md = Raises e ->
  e = TypeError \/ e = OverflowError \/ e = ValueError.
Proof.
  intros H.
  destruct (build_raises_in_a_line _ _ _ _ _ H) as [H1|[H2|H3]].
  - left. apply (location_line_TypeError _ _ H1).
  - destruct (distance_line_kinds _ _ H2); auto.
  - apply (elevation_line_kinds _ _ H3).
Qed.

(** X8: whether [build_gpx] fails, with which exception, and which
    description it writes depend on the metadata alone: not on the points
    (an empty list included), the name or the clock. *)
Theorem build_outcome_from_metadata now pts nm now' pts' nm' md :
  (forall e, build now pts nm md = Raises e ->
     build now' pts' nm' md = Raises e)
  /\ (forall gpx, build now pts nm md = Returns gpx ->
        exists gpx', build now' pts' nm' md = Returns gpx'
          /\ gpx_description gpx' = gpx_description gpx).
Proof.
  rewrite !build_run.
  destruct (location_line md) as [loc|e1]; simpl.
  2:{ split; [auto | discriminate]. }
  destruct (distance_line md) as [dist|e2]; simpl.
  2:{ split; [auto | discriminate]. }
  destruct (elevation_line md) as [el|e3]; simpl.
  2:{ split; [auto | discriminate]. }
  split; [discriminate|].
  intros gpx H. injection H as <-. eexists. split; reflexivity.
Qed.

(** X9: a built document carries the creator label, the route name as its
    own name and as the name of its only track, the clock's time, and a
    description that is a string. *)
Theorem document_header now pts nm md gpx :
  build now pts nm md = Returns gpx ->
  gpx_creator gpx = VStr "Biketerra GPX Exporter"
  /\ gpx_name gpx = nm
  /\ gpx_time gpx = Some now
  /\ (exists text, gpx_description gpx = VStr text)
  /\ exists segment, gpx_tracks gpx = [Track nm [segment]].
Proof.
  rewrite build_run. intros H.
  rbind_inv H. rbind_inv H. rbind_inv H. injection H as <-. simpl.
  repeat split; eauto.
Qed.

(** X10: when the metadata has no city, distance or elevation (or empty
    or zero ones), [build_gpx] cannot fail and the description is empty,
    whatever state, country, county, title or id there is; the segment
    holds one track point per point, with [latitude or 0] and
    [longitude or 0]. *)
Theorem plain_metadata_builds now pts nm md :
  truthy (dict_get md "geo_city") = false ->
  truthy (dict_get md "distance") = false ->
  truthy (dict_get md "elevation") = false ->
  build now pts nm md =
    Returns (Gpx (VStr "Biketerra GPX Exporter") nm (VStr EmptyString)
                 (Some now) [Track nm [Segment (map track_point_of pts)]]).
Proof.
  intros Hc Hd He. rewrite build_run.
  unfold location_line, distance_line, elevation_line.
  rewrite Hc, Hd, He. reflexivity.
Qed.

(** X11: a non-empty city that is not a string, and a non-zero distance
    that is not a number, each make [build_gpx] raise [TypeError]. *)
Theorem ill_typed_metadata_aborts now pts nm md v :
  truthy v = true ->
  (md !! "geo_city" = Some v -> (forall s, v <> VStr s) ->
     build now pts nm md = Raises TypeError)
  /\ (md !! "distance" = Some v -> is_number v = false ->
        build now pts nm md = Raises TypeError).
Proof.
  intros Hv. split.
  - intros Hc Hs. rewrite build_run. unfold location_line.
    assert (dict_get md "geo_city" = v) as ->
      by (unfold dict_get; rewrite Hc; reflexivity).
    rewrite Hv. unfold py_join. cbn [List.filter]. rewrite Hv.
    destruct v; try reflexivity. destruct (Hs s). reflexivity.
  - intros Hd Hn. rewrite build_run.
    destruct (location_line md) as [loc|e] eqn:Hloc; cbn [rbind].
    + unfold distance_line.
      assert (dict_get md "distance" = v) as Hg
        by (unfold dict_get; rewrite Hd; reflexivity).
      rewrite Hg, Hv.
      rewrite (truthy_getitem md "distance") by (rewrite Hg; exact Hv).
      rewrite Hg.
      destruct v; try discriminate; reflexivity.
    + rewrite (location_line_TypeError _ _ Hloc). reflexivity.
Qed.

(** X12: an infinite elevation makes [build_gpx] raise [OverflowError]
    and a NaN elevation [ValueError], when city and distance are absent:
    [round] refuses both. *)
Theorem unroundable_elevation now pts nm md :
  truthy (dict_get md "geo_city") = false ->
  truthy (dict_get md "distance") = false ->
  (forall s, md !! "elevation" = Some (VFloat (S754_infinity s)) ->
     build now pts nm md = Raises OverflowError)
  /\ (md !! "elevation" = Some (VFloat S754_nan) ->
        build now pts nm md = Raises ValueError).
Proof.
  intros Hc Hd. split.
  - intros s He. rewrite build_run.
    unfold location_line, distance_line, elevation_line, dict_get in *.
    rewrite Hc, Hd. simpl. rewrite He. reflexivity.
  - intros He. rewrite build_run.
    unfold location_line, distance_line, elevation_line, dict_get in *.
    rewrite Hc, Hd. simpl. rewrite He. reflexivity.
Qed.

(** ** The driver *)

Lemma printed_nil w : printed w [] = w.
Proof. destruct w. unfold printed. simpl. rewrite app_nil_r. reflexivity. Qed.

Lemma printed_printed w l1 l2 :
  printed (printed w l1) l2 = printed w (l1 ++ l2)%list.
Proof. unfold printed. simpl. rewrite app_assoc. reflexivity. Qed.

Lemma built_then_reported now pts nm md gpx :
  build now pts nm md = Returns gpx ->
  exists dl el,
    distance_line md = Returns dl /\ elevation_report md = Returns el.
Proof.
  rewrite build_run. intros H.
  apply rbind_Returns in H. destruct H as (loc & _ & H).
  apply rbind_Returns in H. destruct H as (dl & Hdl & H).
  apply rbind_Returns in H. destruct H as (el & Hel & _).
  exists dl. unfold elevation_line in Hel. unfold elevation_report.
  destruct (truthy (dict_get md "elevation")).
  - apply rbind_Returns in Hel. destruct Hel as (elevation & He1 & Hel).
    apply rbind_Returns in Hel. destruct Hel as (m & He2 & _).
    rewrite He1. simpl. rewrite He2. simpl. eauto.
  - eauto.
Qed.

Section Runs.

Variable py_repr : value -> string.
Variable str_exception : exception -> string.
Variable traceback : exception -> string.
Variable now : Z.
Variable fetch : string -> result value.
Variable to_xml : GPX -> result string.
Variable writable : string -> bool.
Variable encodable : string -> bool.

Local Abbreviation run :=
  (run_main py_repr str_exception traceback now fetch to_xml writable
            encodable).
Local Abbreviation ends := (exit_on str_exception traceback).

Lemma exit_on_keeps_stdout e w : w_stdout (snd (ends e w)) = w_stdout w.
Proof. destruct e; reflexivity. Qed.

Lemma exit_on_structure e w :
  StructureError e ->
  ends e w =
    (1, complained w ("Error parsing route data: " +:+ str_exception e)).
Proof. intros [->|[->| ->]]; reflexivity. Qed.

Lemma print_distance_run md w :
  (if truthy (dict_get md "distance") then
     let! distance := lift (py_getitem (VDict md) (VStr "distance")) in
     let! km := lift (py_truediv distance 100000) in
     print ("Distance: " +:+ format_f 2 km +:+ " km")
   else ret tt) w =
  match distance_line md with
  | Returns lines => (Returns tt, printed w lines)
  | Raises e => (Raises e, w)
  end.
Proof.
  unfold distance_line.
  destruct (truthy (dict_get md "distance"));
    [|simpl; rewrite printed_nil; reflexivity].
  unfold bind, lift.
  destruct (py_getitem _ _) as [distance|e]; simpl; [|reflexivity].
  destruct (py_truediv _ _) as [q|e]; simpl; reflexivity.
Qed.

Lemma print_elevation_run md w :
  (if truthy (dict_get md "elevation") then
     let! elevation := lift (py_getitem (VDict md) (VStr "elevation")) in
     let! m := lift (py_truediv elevation 100) in
     print ("Elevation: " +:+ format_f 0 m +:+ " m")
   else ret tt) w =
  match elevation_report md with
  | Returns lines => (Returns tt, printed w lines)
  | Raises e => (Raises e, w)
  end.
Proof.
  unfold elevation_report.
  destruct (truthy (dict_get md "elevation"));
    [|simpl; rewrite printed_nil; reflexivity].
  unfold bind, lift.
  destruct (py_getitem _ _) as [elevation|e]; simpl; [|reflexivity].
  destruct (py_truediv _ _) as [q|e]; simpl; reflexivity.
Qed.

(** A run whose document was built. *)
Lemma run_built route_id output w data p pts md nm gpx :
  fetch route_id = Returns data ->
  decode py_repr data = Returns (p :: pts, md, nm) ->
  build now (p :: pts) nm md = Returns gpx ->
  run route_id output w =
    let out := output_file_of route_id output in
    let w1 := fetching route_id w in
    if writable out then
      match to_xml gpx with
      | Raises e => ends e (written w1 out EmptyString)
      | Returns xml =>
          if encodable xml then
            let w2 := printed (written w1 out xml)
                        (wrote_lines py_repr out (length (p :: pts)) nm) in
            match distance_line md with
            | Raises e => ends e w2
            | Returns dl =>
                match elevation_report md with
                | Raises e => ends e (printed w2 dl)
                | Returns el => (0, printed (printed w2 dl) el)
                end
            end
          else ends UnicodeEncodeError (written w1 out EmptyString)
      end
    else ends OSError w1.
Proof.
  intros H1 H2 H3. unfold run_main, exit_on, main, try_except.
  fold (output_file_of route_id output).
  generalize (output_file_of route_id output); intros out.
  unfold bind at 1, print at 1, modify at 1.
  unfold bind at 1, lift at 1. rewrite H1.
  unfold bind at 1, lift at 1. rewrite H2.
  cbn beta iota. unfold negb.
  unfold bind at 1, lift at 1. rewrite H3.
  unfold bind at 1, open_w at 1.
  fold (fetching route_id w).
  destruct (writable out); [|reflexivity].
  unfold modify at 1.
  unfold bind at 1. unfold bind at 1, lift at 1.
  destruct (to_xml gpx) as [xml|e]; [|reflexivity].
  unfold write at 1.
  destruct (encodable xml); [|reflexivity].
  unfold modify at 1. cbn [w_files w_stdout w_stderr w_opened].
  rewrite lookup_insert_eq, insert_insert_eq. cbn [default].
  change (EmptyString +:+ xml) with xml.
  unfold bind at 1, print at 1, modify at 1.
  unfold bind at 1, print at 1, modify at 1.
  cbn [w_files w_stdout w_stderr w_opened].
  unfold bind at 1. rewrite print_distance_run.
  unfold written, printed, wrote_lines.
  cbn [w_files w_stdout w_stderr w_opened fetching].
  rewrite <- !app_assoc. cbn [app].
  destruct (distance_line md) as [dl|e]; [|reflexivity].
  rewrite print_elevation_run. unfold printed.
  cbn [w_files w_stdout w_stderr w_opened].
  destruct (elevation_report md) as [el|e]; reflexivity.
Qed.

Lemma decode_failure_status route_id output w data e :
  fetch route_id = Returns data ->
  decode py_repr data = Raises e ->
  fst (run route_id output w) = 1.
Proof.
  intros H1 H2.
  rewrite (run_decode_raises _ _ _ _ _ _ _ _ _ output w _ _ H1 H2).
  apply exit_on_status, StructureError_ordinary.
  apply (structural_decode py_repr data). exact H2.
Qed.

(** X13: when the fetch, the decode (with at least one point), the build,
    the opening of the output path, the serialization and the encoding
    of the serialized text by [f.write] all succeed, the run exits with
    status 0, prints nothing on standard error, has opened the output path
    once, and leaves there exactly the serialized document, whatever the
    file held before; standard output gets the fetching line, the two
    lines of the write, the distance line of the description and the
    elevation line when their metadata is there. *)
Theorem successful_run route_id output w data pts md nm gpx xml :
  fetch route_id = Returns data ->
  decode py_repr data = Returns (pts, md, nm) ->
  pts <> [] ->
  build now pts nm md = Returns gpx ->
  writable (output_file_of route_id output) = true ->
  to_xml gpx = Returns xml ->
  encodable xml = true ->
  exists dl el,
    distance_line md = Returns dl
    /\ elevation_report md = Returns el
    /\ run route_id output w =
         (0, World
               (w_stdout w
                ++ ["Fetching route " +:+ route_id +:+ "..."]
                ++ wrote_lines py_repr (output_file_of route_id output)
                               (length pts) nm
                ++ dl ++ el)%list
               (w_stderr w)
               (<[output_file_of route_id output := xml]> (w_files w))
               (w_opened w ++ [output_file_of route_id output])%list).
Proof.
  intros H1 H2 Hne H3 H4 H5 H6.
  destruct pts as [|p pts]; [destruct Hne; reflexivity|].
  destruct (built_then_reported _ _ _ _ _ H3) as (dl & el & Hdl & Hel).
  exists dl, el. split; [exact Hdl|]. split; [exact Hel|].
  rewrite (run_built _ output w _ _ _ _ _ _ H1 H2 H3).
  cbv zeta. rewrite H4, H5, H6, Hdl, Hel.
  unfold printed, written, fetching. cbn [w_files w_stdout w_stderr w_opened].
  rewrite <- !app_assoc. reflexivity.
Qed.

(** X14: whatever happens, a run touches no file but the output path, it
    opens that path at most once and nothing else, and what was on standard
    output stays there, followed by the fetching line. *)
Theorem only_output_file_touched route_id output w :
  let '(status, w') := run route_id output w in
  (forall path, path <> output_file_of route_id output ->
     w_files w' !! path = w_files w !! path)
  /\ (w_opened w' = w_opened w
      \/ w_opened w' = (w_opened w ++ [output_file_of route_id output])%list)
  /\ exists more,
       w_stdout w' =
         (w_stdout w
          ++ ("Fetching route " +:+ route_id +:+ "...") :: more)%list.
Proof.
  set (out := output_file_of route_id output).
  set (line := "Fetching route " +:+ route_id +:+ "...").
  set (kept := fun w' : world =>
    (forall path, path <> out -> w_files w' !! path = w_files w !! path)
    /\ (w_opened w' = w_opened w \/ w_opened w' = (w_opened w ++ [out])%list)
    /\ exists more, w_stdout w' = (w_stdout w ++ line :: more)%list).
  assert (forall e w0,
    w_files w0 = w_files w -> w_opened w0 = w_opened w ->
    w_stdout w0 = (w_stdout w ++ [line])%list ->
    kept (snd (ends e w0))) as Hquiet.
  { intros e w0 Hf Ho Hs.
    destruct (exit_on_keeps_files str_exception traceback e w0) as [Hf' Ho'].
    pose proof (exit_on_keeps_stdout e w0) as Hs'.
    unfold kept. rewrite Hf', Ho', Hs', Hf, Ho, Hs. repeat split; eauto. }
  assert (forall e w0 text,
    w_files w0 = <[out := text]> (w_files w) ->
    w_opened w0 = (w_opened w ++ [out])%list ->
    (exists more, w_stdout w0 = (w_stdout w ++ line :: more)%list) ->
    kept (snd (ends e w0))) as Hopen.
  { intros e w0 text Hf Ho Hs.
    destruct (exit_on_keeps_files str_exception traceback e w0) as [Hf' Ho'].
    pose proof (exit_on_keeps_stdout e w0) as Hs'.
    unfold kept. rewrite Hf', Ho', Hs', Hf, Ho. repeat split; auto.
    intros path Hp. apply lookup_insert_ne. congruence. }
  enough (kept (snd (run route_id output w))) as Hk
    by (destruct (run route_id output w); exact Hk).
  destruct (fetch route_id) as [data|e] eqn:Hfetch.
  2:{ rewrite (run_fetch_raises _ _ _ _ _ _ _ _ _ output w _ Hfetch).
      apply Hquiet; reflexivity. }
  destruct (decode py_repr data) as [[[pts md] nm]|e] eqn:Hdec.
  2:{ rewrite (run_decode_raises _ _ _ _ _ _ _ _ _ output w _ _ Hfetch Hdec).
      apply Hquiet; reflexivity. }
  destruct pts as [|p pts].
  { rewrite (run_empty_route _ _ _ _ _ _ _ _ _ output w _ _ _ Hfetch Hdec).
    unfold kept. simpl. repeat split; eauto. }
  destruct (build now (p :: pts) nm md) as [gpx|e] eqn:Hb.
  2:{ rewrite (run_build_raises _ _ _ _ _ _ _ _ _ output w _ _ _ _ _ _
                 Hfetch Hdec Hb).
      apply Hquiet; reflexivity. }
  rewrite (run_built _ output w _ _ _ _ _ _ Hfetch Hdec Hb). cbv zeta.
  fold out.
  destruct (writable out); [|apply Hquiet; reflexivity].
  destruct (to_xml gpx) as [xml|e].
  2:{ apply (Hopen e _ EmptyString); try reflexivity.
      exists []. reflexivity. }
  destruct (encodable xml).
  2:{ apply (Hopen UnicodeEncodeError _ EmptyString); try reflexivity.
      exists []. reflexivity. }
  destruct (distance_line md) as [dl|e].
  2:{ apply (Hopen e _ xml); try reflexivity.
      eexists. cbn [printed written fetching w_stdout].
      rewrite <- app_assoc. reflexivity. }
  destruct (elevation_report md) as [el|e].
  2:{ apply (Hopen e _ xml); try reflexivity.
      eexists. cbn [printed written fetching w_stdout].
      rewrite <- !app_assoc. reflexivity. }
  unfold kept.
  cbn [snd printed written fetching w_stdout w_stderr w_files w_opened].
  repeat split.
  - intros path Hp. apply lookup_insert_ne. congruence.
  - right. reflexivity.
  - eexists. rewrite <- !app_assoc. reflexivity.
Qed.

(** X15: the output path is opened before the document is serialized: when
    [gpx.to_xml()] raises, the run exits with status 1 and leaves an empty
    file at the output path, whatever was there before. *)
Theorem serializer_failure_truncates route_id output w data pts md nm gpx e :
  fetch route_id = Returns data ->
  decode py_repr data = Returns (pts, md, nm) ->
  pts <> [] ->
  build now pts nm md = Returns gpx ->
  writable (output_file_of route_id output) = true ->
  to_xml gpx = Raises e ->
  ordinary e ->
  let '(status, w') := run route_id output w in
  status = 1
  /\ w_files w' =
       <[output_file_of route_id output := EmptyString]> (w_files w)
  /\ w_opened w' = (w_opened w ++ [output_file_of route_id output])%list.
Proof.
  intros H1 H2 Hne H3 H4 H5 Hord.
  destruct pts as [|p pts]; [destruct Hne; reflexivity|].
  rewrite (run_built _ output w _ _ _ _ _ _ H1 H2 H3).
  cbv zeta. rewrite H4, H5.
  set (w0 := written (fetching route_id w) _ _).
  destruct (exit_on_keeps_files str_exception traceback e w0) as [Hf Ho].
  pose proof (exit_on_status str_exception traceback e w0 Hord) as Hs.
  destruct (ends e w0) as [status w']. simpl in *.
  repeat split; assumption.
Qed.

(** X24: the serialized text is encoded when [f.write] is called, after
    the output path was opened: when the text cannot be encoded, the
    [UnicodeEncodeError] is caught by no [except] clause, so the run ends
    with its traceback on standard error and status 1, prints nothing
    after the fetching line, and leaves an empty file at the output path,
    whatever was there before. *)
Theorem unencodable_document_truncates route_id output w data pts md nm gpx xml :
  fetch route_id = Returns data ->
  decode py_repr data = Returns (pts, md, nm) ->
  pts <> [] ->
  build now pts nm md = Returns gpx ->
  writable (output_file_of route_id output) = true ->
  to_xml gpx = Returns xml ->
  encodable xml = false ->
  run route_id output w =
    (1, complained
          (written (fetching route_id w) (output_file_of route_id output)
                   EmptyString)
          (traceback UnicodeEncodeError)).
Proof.
  intros H1 H2 Hne H3 H4 H5 H6.
  destruct pts as [|p pts]; [destruct Hne; reflexivity|].
  rewrite (run_built _ output w _ _ _ _ _ _ H1 H2 H3).
  cbv zeta. rewrite H4, H5, H6. reflexivity.
Qed.

(** X16: when the output path cannot be opened, the [OSError] is caught by
    no [except] clause: the run ends with its traceback on standard error
    and status 1, and no file is touched. *)
Theorem unwritable_output_path route_id output w data pts md nm gpx :
  fetch route_id = Returns data ->
  decode py_repr data = Returns (pts, md, nm) ->
  pts <> [] ->
  build now pts nm md = Returns gpx ->
  writable (output_file_of route_id output) = false ->
  run route_id output w =
    (1, complained (fetching route_id w) (traceback OSError)).
Proof.
  intros H1 H2 Hne H3 H4.
  destruct pts as [|p pts]; [destruct Hne; reflexivity|].
  rewrite (run_built _ output w _ _ _ _ _ _ H1 H2 H3).
  cbv zeta. rewrite H4. reflexivity.
Qed.

(** X17: a failed fetch is reported by its kind: an [HTTPError] as "Error
    fetching route: ...", any other [RequestException] as "Network error:
    ...", each with status 1; nothing else is printed and no file is
    touched. *)
Theorem fetch_failure_report route_id output w e :
  fetch route_id = Raises e ->
  (e = HTTPError ->
     run route_id output w =
       (1, complained (fetching route_id w)
                      ("Error fetching route: " +:+ str_exception e)))
  /\ (e = RequestException ->
        run route_id output w =
          (1, complained (fetching route_id w)
                         ("Network error: " +:+ str_exception e))).
Proof.
  intros H. rewrite (run_fetch_raises _ _ _ _ _ _ _ _ _ output w _ H).
  split; intros ->; reflexivity.
Qed.

(** X18: every failure of the decoder is reported as "Error parsing route
    data: ..." with status 1, after the fetching line and with no file
    touched: a malformed document never ends in a traceback. *)
Theorem decode_failure_is_reported route_id output w data e :
  fetch route_id = Returns data ->
  decode py_repr data = Raises e ->
  run route_id output w =
    (1, complained (fetching route_id w)
                   ("Error parsing route data: " +:+ str_exception e)).
Proof.
  intros H1 H2.
  rewrite (run_decode_raises _ _ _ _ _ _ _ _ _ output w _ _ H1 H2).
  apply exit_on_structure, (structural_decode py_repr data). exact H2.
Qed.

(** X19: a builder failure is reported as a parse error when it is a
    [TypeError]; an [OverflowError] or a [ValueError] of the builder is
    caught by no [except] clause and ends the run with a traceback.  In
    each case the status is 1 and no file is touched. *)
Theorem build_failure_report route_id output w data pts md nm e :
  fetch route_id = Returns data ->
  decode py_repr data = Returns (pts, md, nm) ->
  pts <> [] ->
  build now pts nm md = Raises e ->
  run route_id output w =
    (1, complained (fetching route_id w)
          (match e with
           | TypeError => "Error parsing route data: " +:+ str_exception e
           | _ => traceback e
           end)).
Proof.
  intros H1 H2 Hne H3.
  destruct pts as [|p pts]; [destruct Hne; reflexivity|].
  rewrite (run_build_raises _ _ _ _ _ _ _ _ _ output w _ _ _ _ _ _ H1 H2 H3).
  destruct (build_raises_in_a_line _ _ _ _ _ H3) as [Hl|[Hd|He]].
  - rewrite (location_line_TypeError _ _ Hl). reflexivity.
  - destruct (distance_line_kinds _ _ Hd) as [->| ->]; reflexivity.
  - destruct (elevation_line_kinds _ _ He) as [->|[->| ->]]; reflexivity.
Qed.

(** X20: when the collaborators raise no [SystemExit], the exit status is
    0 or 1, and it is 0 exactly when the fetch, the decode with at least
    one point, the build, the opening of the output path, the
    serialization and the encoding of the serialized text by [f.write]
    all succeeded. *)
Theorem exit_status_zero_iff route_id output w :
  (forall e, fetch route_id = Raises e -> ordinary e) ->
  (forall gpx e, to_xml gpx = Raises e -> ordinary e) ->
  let status := fst (run route_id output w) in
  (status = 0 \/ status = 1)
  /\ (status = 0 <->
      exists data pts md nm gpx xml,
        fetch route_id = Returns data
        /\ decode py_repr data = Returns (pts, md, nm)
        /\ pts <> []
        /\ build now pts nm md = Returns gpx
        /\ writable (output_file_of route_id output) = true
        /\ to_xml gpx = Returns xml
        /\ encodable xml = true).
Proof.
  intros Hfe Hxe. cbv zeta.
  destruct (fetch route_id) as [data|e] eqn:Hfetch.
  2:{ rewrite (run_fetch_raises _ _ _ _ _ _ _ _ _ output w _ Hfetch).
      rewrite (exit_on_status _ _ _ _ (Hfe e eq_refl)).
      split; [auto|]. split; [discriminate|].
      intros (? & ? & ? & ? & ? & ? & Hd & _). discriminate. }
  destruct (decode py_repr data) as [[[pts md] nm]|e] eqn:Hdec.
  2:{ rewrite (decode_failure_status route_id output w data e Hfetch Hdec).
      split; [auto|]. split; [discriminate|].
      intros (d & ? & ? & ? & ? & ? & Hd & Hdd & _).
      injection Hd as <-. rewrite Hdec in Hdd. discriminate. }
  destruct pts as [|p pts].
  { rewrite (run_empty_route _ _ _ _ _ _ _ _ _ output w _ _ _ Hfetch Hdec).
    split; [auto|]. split; [discriminate|].
    intros (d & ? & ? & ? & ? & ? & Hd & Hdd & Hne & _).
    injection Hd as <-. rewrite Hdec in Hdd. injection Hdd as <- <- <-.
    destruct Hne. reflexivity. }
  destruct (build now (p :: pts) nm md) as [gpx|e] eqn:Hb.
  2:{ rewrite (run_build_raises _ _ _ _ _ _ _ _ _ output w _ _ _ _ _ _
                 Hfetch Hdec Hb).
      rewrite (exit_on_status _ _ _ _ (build_ordinary _ _ _ _ _ Hb)).
      split; [auto|]. split; [discriminate|].
      intros (d & ? & ? & ? & ? & ? & Hd & Hdd & _ & Hbb & _).
      injection Hd as <-. rewrite Hdec in Hdd. injection Hdd as <- <- <-.
      rewrite Hb in Hbb. discriminate. }
  rewrite (run_built _ output w _ _ _ _ _ _ Hfetch Hdec Hb). cbv zeta.
  destruct (built_then_reported _ _ _ _ _ Hb) as (dl & el & Hdl & Hel).
  rewrite Hdl, Hel.
  destruct (writable (output_file_of route_id output)) eqn:Hw.
  2:{ split; [auto|]. split; [discriminate|].
      intros (? & ? & ? & ? & ? & ? & _ & _ & _ & _ & Hww & _).
      discriminate. }
  destruct (to_xml gpx) as [xml|e] eqn:Hx.
  2:{ rewrite (exit_on_status _ _ _ _ (Hxe _ _ Hx)).
      split; [auto|]. split; [discriminate|].
      intros (d & ? & ? & ? & g & ? & Hd & Hdd & _ & Hbb & _ & Hxx & _).
      injection Hd as <-. rewrite Hdec in Hdd. injection Hdd as <- <- <-.
      rewrite Hb in Hbb. injection Hbb as <-. rewrite Hx in Hxx.
      discriminate. }
  destruct (encodable xml) eqn:He.
  2:{ split; [auto|]. split; [discriminate|].
      intros (d & ? & ? & ? & g & x & Hd & Hdd & _ & Hbb & _ & Hxx & Hee).
      injection Hd as <-. rewrite Hdec in Hdd. injection Hdd as <- <- <-.
      rewrite Hb in Hbb. injection Hbb as <-. rewrite Hx in Hxx.
      injection Hxx as <-. rewrite He in Hee. discriminate. }
  simpl. split; [auto|]. split; [|reflexivity].
  intros _. exists data, (p :: pts), md, nm, gpx, xml.
  repeat split; try assumption. discriminate.
Qed.

End Runs.

(** ** The fetch *)

(** X21: a response with a 4xx or 5xx status ends the run with "Error
    fetching route: ..." and status 1, whatever its body, even a
    well-formed document; a transport failure of [requests.get] ends it
    with "Network error: ..."; and with any other status it is the JSON
    body, or the exception of [response.json()], that the fetch hands
    on. *)
Theorem fetch_outcomes py_repr str_exception traceback now to_xml writable
    encodable requests_get route_id output w :
  let url := "https://biketerra.com/routes/" +:+ route_id +:+ "/__data.json" in
  let run := run_main py_repr str_exception traceback now
                      (fetch_route_data requests_get) to_xml writable
                      encodable in
  (forall r, requests_get url 30 = Returns r ->
     400 <= status_code r < 600 ->
     run route_id output w =
       (1, complained (fetching route_id w)
                      ("Error fetching route: " +:+ str_exception HTTPError)))
  /\ (requests_get url 30 = Raises RequestException ->
        run route_id output w =
          (1, complained (fetching route_id w)
                         ("Network error: "
                          +:+ str_exception RequestException)))
  /\ (forall r, requests_get url 30 = Returns r ->
        ~ (400 <= status_code r < 600) ->
        fetch_route_data requests_get route_id = json r).
Proof.
  cbv zeta. repeat split.
  - intros r Hr Hs.
    rewrite (run_fetch_raises _ _ _ _ _ _ _ _ _ output w HTTPError);
      [reflexivity|].
    unfold fetch_route_data. rewrite Hr. simpl. unfold raise_for_status.
    destruct (Z.leb_spec 400 (status_code r)); [|lia].
    destruct (Z.ltb_spec (status_code r) 600); [|lia]. reflexivity.
  - intros Hr.
    rewrite (run_fetch_raises _ _ _ _ _ _ _ _ _ output w RequestException);
      [reflexivity|].
    unfold fetch_route_data. rewrite Hr. reflexivity.
  - intros r Hr Hs. unfold fetch_route_data. rewrite Hr. simpl.
    unfold raise_for_status.
    destruct (Z.leb_spec 400 (status_code r));
      destruct (Z.ltb_spec (status_code r) 600); try reflexivity. lia.
Qed.

(** ** Numbers *)

Lemma round_half_even_nonneg n d : 0 <= n -> 0 < d -> 0 <= round_half_even n d.
Proof.
  intros Hn Hd. unfold round_half_even.
  assert (0 <= n / d) by (apply Z.div_pos; lia).
  destruct (2 * (n mod d) ?= d); [destruct (Z.even (n / d))| |]; lia.
Qed.

Lemma scaled_round_nonneg m e p : 0 <= scaled_round m e p.
Proof.
  unfold scaled_round. destruct (Z.leb_spec 0 e).
  - assert (0 <= 2 ^ e) by (apply Z.pow_nonneg; lia).
    assert (0 <= 10 ^ Z.of_nat p) by (apply Z.pow_nonneg; lia).
    nia.
  - apply round_half_even_nonneg.
    + assert (0 <= 10 ^ Z.of_nat p) by (apply Z.pow_nonneg; lia). nia.
    + apply Z.pow_pos_nonneg; lia.
Qed.

(** X22: the elevation [main] prints with [.0f] and the one the
    description holds, from [round], are the same digits whenever the
    rounded elevation is not zero; at zero they differ for a negative
    value, which prints as ["-0"]. *)
Theorem elevation_texts_agree :
  (forall q r, py_round q = Returns r -> r <> 0 ->
     format_f 0 q = str_int r)
  /\ (format_f 0 (S754_finite true 1 (-2)) = "-0"
      /\ py_round (S754_finite true 1 (-2)) = Returns 0).
Proof.
  split; [|split; reflexivity].
  intros q r Hq Hr. destruct q as [s|s| |s m e]; try discriminate.
  - injection Hq as <-. destruct Hr. reflexivity.
  - simpl in Hq. injection Hq as <-.
    unfold format_f, fixed_digits. change (10 ^ Z.of_nat 0) with 1.
    rewrite Z.div_1_r.
    pose proof (scaled_round_nonneg m e 0) as Hn.
    destruct (scaled_round m e 0) as [|n|n]; [|destruct s; reflexivity|lia].
    destruct s; destruct Hr; reflexivity.
Qed.

(** ** The further properties at the example stores *)

Lemma metadata_keys_recognized_witness :
  In "title" fields
  /\ exists raw, sample_record !! "title" = Some raw
       /\ is_pointer raw = true
       /\ deref (VList sample_store) raw = Returns (VStr "Sunset Loop").
Proof.
  apply (metadata_keys_recognized plain_repr (route_document sample_store)
           (VList sample_store) sample_record sample_points sample_metadata
           (VStr "Sunset Loop") "title" (VStr "Sunset Loop")).
  - vm_compute. reflexivity.
  - reflexivity.
  - reflexivity.
  - reflexivity.
Defined.

Lemma metadata_values_from_store_witness :
  exists store,
    route_data_of (route_document sample_store) = Returns (VList store)
    /\ forall key v, sample_metadata !! key = Some v ->
         exists i : nat, (0 < i)%nat /\ store !! i = Some v.
Proof.
  apply (metadata_values_from_store plain_repr (route_document sample_store)
           sample_points sample_metadata (VStr "Sunset Loop")).
  vm_compute. reflexivity.
Defined.

Lemma point_values_from_store_witness :
  exists store,
    route_data_of (route_document sample_store) = Returns (VList store)
    /\ forall p, In p sample_points ->
         In (lat p) store /\ In (lng p) store /\ In (ele p) store.
Proof.
  apply (point_values_from_store plain_repr (route_document sample_store)
           sample_points sample_metadata (VStr "Sunset Loop")).
  vm_compute. reflexivity.
Defined.

Lemma dangling_metadata_pointer_aborts_witness :
  exists e, decode plain_repr (route_document dangling_store) = Raises e
    /\ StructureError e.
Proof.
  apply (dangling_metadata_pointer_aborts plain_repr
           (route_document dangling_store) dangling_store
           {[ "title" := VInt 9 ]} "title" 9).
  - reflexivity.
  - reflexivity.
  - simpl. tauto.
  - reflexivity.
  - lia.
  - simpl. lia.
Defined.

Lemma document_shape_errors_witness :
  decode plain_repr (VDict ∅) = Raises KeyError.
Proof.
  apply (proj1 (proj2 (document_shape_errors plain_repr)) ∅).
  reflexivity.
Defined.

Lemma route_name_never_empty_witness :
  truthy (VStr "Sunset Loop") = true
  /\ (VStr "Sunset Loop" = dict_get sample_metadata "title"
      \/ exists rest, VStr "Sunset Loop" = VStr ("Route " +:+ rest)).
Proof.
  apply (route_name_never_empty plain_repr (route_document sample_store)
           sample_points sample_metadata (VStr "Sunset Loop")).
  vm_compute. reflexivity.
Defined.

Lemma build_failure_kinds_witness :
  TypeError = TypeError \/ TypeError = OverflowError \/ TypeError = ValueError.
Proof.
  apply (build_failure_kinds 0 sample_points (VStr "Route Unknown")
           ill_typed_metadata TypeError).
  vm_compute. reflexivity.
Defined.

Lemma build_outcome_from_metadata_witness :
  build 1 [] VNone ill_typed_metadata = Raises TypeError.
Proof.
  apply (proj1 (build_outcome_from_metadata 0 sample_points
                  (VStr "Route Unknown") 1 [] VNone ill_typed_metadata)).
  vm_compute. reflexivity.
Defined.

Lemma document_header_witness :
  gpx_creator sample_gpx = VStr "Biketerra GPX Exporter"
  /\ gpx_name sample_gpx = VStr "Sunset Loop"
  /\ gpx_time sample_gpx = Some 0
  /\ (exists text, gpx_description sample_gpx = VStr text)
  /\ exists segment,
       gpx_tracks sample_gpx = [Track (VStr "Sunset Loop") [segment]].
Proof.
  apply (document_header 0 sample_points (VStr "Sunset Loop")
           sample_metadata sample_gpx).
  vm_compute. reflexivity.
Defined.

Lemma plain_metadata_builds_witness :
  build 0 [Point VNone (VFloat (S754_zero false)) (VInt 5)]
        (VStr "Sunset Loop") literal_metadata =
    Returns (Gpx (VStr "Biketerra GPX Exporter") (VStr "Sunset Loop")
                 (VStr EmptyString) (Some 0)
                 [Track (VStr "Sunset Loop")
                    [Segment [TrackPoint (VInt 0) (VInt 0) (VInt 5)]]]).
Proof.
  apply (plain_metadata_builds 0
           [Point VNone (VFloat (S754_zero false)) (VInt 5)]
           (VStr "Sunset Loop") literal_metadata); reflexivity.
Defined.

Lemma ill_typed_metadata_aborts_witness :
  build 0 sample_points (VStr "Route Unknown") ill_typed_metadata
  = Raises TypeError.
Proof.
  apply (proj2 (ill_typed_metadata_aborts 0 sample_points
                  (VStr "Route Unknown") ill_typed_metadata (VStr "far")
                  ltac:(reflexivity))); reflexivity.
Defined.

Lemma unroundable_elevation_witness :
  build 0 sample_points (VStr "Route Unknown") infinite_metadata
  = Raises OverflowError.
Proof.
  apply (proj1 (unroundable_elevation 0 sample_points (VStr "Route Unknown")
                  infinite_metadata ltac:(reflexivity) ltac:(reflexivity))
           false).
  reflexivity.
Defined.

Lemma successful_run_witness :
  exists dl el,
    distance_line sample_metadata = Returns dl
    /\ elevation_report sample_metadata = Returns el
    /\ run_main plain_repr plain_text plain_text 0 sample_fetch sample_xml
                any_path any_text "8771" None empty_world =
         (0, World
               (w_stdout empty_world
                ++ ["Fetching route " +:+ "8771" +:+ "..."]
                ++ wrote_lines plain_repr (output_file_of "8771" None)
                               (length sample_points) (VStr "Sunset Loop")
                ++ dl ++ el)%list
               (w_stderr empty_world)
               (<[output_file_of "8771" None := "<gpx/>"]>
                  (w_files empty_world))
               (w_opened empty_world ++ [output_file_of "8771" None])%list).
Proof.
  apply (successful_run plain_repr plain_text plain_text 0 sample_fetch
           sample_xml any_path any_text "8771" None empty_world
           (route_document sample_store) sample_points sample_metadata
           (VStr "Sunset Loop") sample_gpx "<gpx/>").
  - reflexivity.
  - vm_compute. reflexivity.
  - discriminate.
  - vm_compute. reflexivity.
  - reflexivity.
  - reflexivity.
  - reflexivity.
Defined.

Lemma only_output_file_touched_witness :
  let '(status, w') :=
    run_main plain_repr plain_text plain_text 0 sample_fetch sample_xml
             any_path any_text "8771" None empty_world in
  w_files w' !! "other.gpx" = w_files empty_world !! "other.gpx".
Proof.
  pose proof (only_output_file_touched plain_repr plain_text plain_text 0
                sample_fetch sample_xml any_path any_text "8771" None empty_world)
    as H.
  destruct (run_main _ _ _ _ _ _ _ _ _ _ _) as [status w'].
  apply (proj1 H). vm_compute. discriminate.
Defined.

Lemma serializer_failure_truncates_witness :
  let '(status, w') :=
    run_main plain_repr plain_text plain_text 0 sample_fetch failing_xml
             any_path any_text "8771" None empty_world in
  status = 1
  /\ w_files w' =
       <[output_file_of "8771" None := EmptyString]> (w_files empty_world)
  /\ w_opened w' = (w_opened empty_world ++ [output_file_of "8771" None])%list.
Proof.
  apply (serializer_failure_truncates plain_repr plain_text plain_text 0
           sample_fetch failing_xml any_path any_text "8771" None empty_world
           (route_document sample_store) sample_points sample_metadata
           (VStr "Sunset Loop") sample_gpx ValueError).
  - reflexivity.
  - vm_compute. reflexivity.
  - discriminate.
  - vm_compute. reflexivity.
  - reflexivity.
  - reflexivity.
  - intros c. discriminate.
Defined.

Lemma unencodable_document_truncates_witness :
  run_main plain_repr plain_text plain_text 0 sample_fetch sample_xml
           any_path no_text "8771" None empty_world =
    (1, complained
          (written (fetching "8771" empty_world) (output_file_of "8771" None)
                   EmptyString)
          (plain_text UnicodeEncodeError)).
Proof.
  apply (unencodable_document_truncates plain_repr plain_text plain_text 0
           sample_fetch sample_xml any_path no_text "8771" None empty_world
           (route_document sample_store) sample_points sample_metadata
           (VStr "Sunset Loop") sample_gpx "<gpx/>").
  - reflexivity.
  - vm_compute. reflexivity.
  - discriminate.
  - vm_compute. reflexivity.
  - reflexivity.
  - reflexivity.
  - reflexivity.
Defined.

Lemma unwritable_output_path_witness :
  run_main plain_repr plain_text plain_text 0 sample_fetch sample_xml
           no_path any_text "8771" None empty_world =
    (1, complained (fetching "8771" empty_world) (plain_text OSError)).
Proof.
  apply (unwritable_output_path plain_repr plain_text plain_text 0
           sample_fetch sample_xml no_path any_text "8771" None empty_world
           (route_document sample_store) sample_points sample_metadata
           (VStr "Sunset Loop") sample_gpx).
  - reflexivity.
  - vm_compute. reflexivity.
  - discriminate.
  - vm_compute. reflexivity.
  - reflexivity.
Defined.

Lemma fetch_failure_report_witness :
  run_main plain_repr plain_text plain_text 0 (fun _ => Raises HTTPError)
           sample_xml any_path any_text "8771" None empty_world =
    (1, complained (fetching "8771" empty_world)
                   ("Error fetching route: " +:+ plain_text HTTPError)).
Proof.
  apply (proj1 (fetch_failure_report plain_repr plain_text plain_text 0
                  (fun _ => Raises HTTPError) sample_xml any_path any_text
                  "8771" None empty_world HTTPError ltac:(reflexivity))).
  reflexivity.
Defined.

Lemma decode_failure_is_reported_witness :
  run_main plain_repr plain_text plain_text 0
           (fun _ => Returns (route_document short_refs_store))
           sample_xml any_path any_text "8771" None empty_world =
    (1, complained (fetching "8771" empty_world)
                   ("Error parsing route data: " +:+ plain_text IndexError)).
Proof.
  apply (decode_failure_is_reported plain_repr plain_text plain_text 0
           (fun _ => Returns (route_document short_refs_store))
           sample_xml any_path any_text "8771" None empty_world
           (route_document short_refs_store) IndexError).
  - reflexivity.
  - vm_compute. reflexivity.
Defined.

Lemma build_failure_report_witness :
  run_main plain_repr plain_text plain_text 0
           (fun _ => Returns (route_document ill_typed_store))
           sample_xml any_path any_text "8771" None empty_world =
    (1, complained (fetching "8771" empty_world)
                   ("Error parsing route data: " +:+ plain_text TypeError)).
Proof.
  apply (build_failure_report plain_repr plain_text plain_text 0
           (fun _ => Returns (route_document ill_typed_store))
           sample_xml any_path any_text "8771" None empty_world
           (route_document ill_typed_store)
           [Point (VInt 7) (VInt 7) (VInt 7)] ill_typed_metadata
           (VStr "Route Unknown") TypeError).
  - reflexivity.
  - vm_compute. reflexivity.
  - discriminate.
  - vm_compute. reflexivity.
Defined.

Lemma exit_status_zero_iff_witness :
  fst (run_main plain_repr plain_text plain_text 0 sample_fetch sample_xml
                any_path any_text "8771" None empty_world) = 0.
Proof.
  apply (proj2 (exit_status_zero_iff plain_repr plain_text plain_text 0
                  sample_fetch sample_xml any_path any_text "8771" None
                  empty_world ltac:(discriminate) ltac:(discriminate))).
  exists (route_document sample_store), sample_points, sample_metadata,
    (VStr "Sunset Loop"), sample_gpx, "<gpx/>".
  split; [reflexivity|].
  split; [vm_compute; reflexivity|].
  split; [discriminate|].
  split; [vm_compute; reflexivity|].
  split; [reflexivity|]. split; reflexivity.
Defined.

Lemma fetch_outcomes_witness :
  run_main plain_repr plain_text plain_text 0 (fetch_route_data not_found)
           sample_xml any_path any_text "8771" None empty_world =
    (1, complained (fetching "8771" empty_world)
                   ("Error fetching route: " +:+ plain_text HTTPError)).
Proof.
  apply (proj1 (fetch_outcomes plain_repr plain_text plain_text 0 sample_xml
                  any_path any_text not_found "8771" None empty_world)
           (Response 404 (Returns (route_document sample_store)))).
  - reflexivity.
  - simpl. lia.
Defined.

Lemma elevation_texts_agree_witness :
  format_f 0 (S754_finite false 5 (-1)) = str_int 2.
Proof.
  apply (proj1 elevation_texts_agree (S754_finite false 5 (-1)) 2).
  - reflexivity.
  - discriminate.
Defined.

Lemma scalar_metadata_record_aborts_witness :
  decode plain_repr (route_document null_record_store) = Raises TypeError.
Proof.
  apply (proj1 (scalar_metadata_record_aborts plain_repr
                  (route_document null_record_store) null_record VNone
                  ltac:(reflexivity) ltac:(reflexivity) I)).
  exists (VInt 99). reflexivity.
Defined.
